(** * plmem: a character device that maps a physical memory region

    Shallow embedding of [plmem.c] (Linux platform driver for FPGA memory
    tests) and the properties of its probe / publish / map / teardown paths.

    The driver is a client of kernel services that live outside this
    repository: the character-device number table ([fs/char_dev.c]), the
    cdev map, the device class, devres allocation, firmware properties, the
    log, and the memory-management helpers used by [mmap].  They are modelled
    in the first part, as small executable state transformers over a record
    [kernel]; the second part is the driver itself, function by function,
    followed by the states and the sample devices the statements refer to;
    the third part holds the theorems, and the fourth runs them on the
    samples. *)

From Stdlib Require Import ZArith String Ascii List Lia Bool.
From stdpp Require Import base list gmap strings.

Local Open Scope Z_scope.

(* ===================================================================== *)
(** * Part 1: the kernel services the driver calls                        *)
(* ===================================================================== *)

(** ** Error numbers ([linux/errno.h]) *)

Inductive errno := ENOMEM | EBUSY | EEXIST | ENODEV | EINVAL | ENOTTY.

Definition errno_val (e : errno) : Z :=
  match e with
  | ENOMEM => 12 | EBUSY => 16 | EEXIST => 17
  | ENODEV => 19 | EINVAL => 22 | ENOTTY => 25
  end.

(** [-E]: the value a failing kernel call returns. *)
Definition neg (e : errno) : Z := - errno_val e.

(** ** Machine integers *)

Definition u32 (x : Z) : Z := x mod 2 ^ 32.
Definition s32 (x : Z) : Z := (x + 2 ^ 31) mod 2 ^ 32 - 2 ^ 31.

(** [unsigned long] and [resource_size_t] on an LP64 target. *)
Definition BITS_PER_LONG : Z := 64.
Definition ulong (x : Z) : Z := x mod 2 ^ BITS_PER_LONG.

(** ** Device numbers ([linux/kdev_t.h]) *)

Definition MINORBITS : Z := 20.
Definition MINORMASK : Z := Z.shiftl 1 MINORBITS - 1.
Definition MAJOR (dev : Z) : Z := Z.shiftr dev MINORBITS.
Definition MINOR (dev : Z) : Z := Z.land dev MINORMASK.
Definition MKDEV (ma mi : Z) : Z := u32 (Z.lor (Z.shiftl ma MINORBITS) mi).

(** ** Pointers

    Objects obtained from [devm_kzalloc] live in a heap indexed by
    allocation order; a pointer is the index, [None] is [NULL]. *)

Definition ptr := nat.

(** [&data->cdev_command]: the address of the [struct cdev] embedded in the
    [struct plmem_data] at [p]. *)
Inductive cdev_ptr := cdev_command_of (p : ptr).

(** [container_of(c, struct plmem_data, cdev_command)]. *)
Definition container_of (c : cdev_ptr) : ptr :=
  match c with cdev_command_of p => p end.

(** ** The driver's per-device object

    [struct plmem_data] and [enum plmem_mode] are declared by the driver; they
    are stated here because the kernel state holds the heap they live in. *)

Inductive plmem_mode := noncached | writecombine | cached.

Inductive file_operations := plmem_fops_table.
Inductive module := THIS_MODULE.

Record cdev := {
  ops : option file_operations;
  owner : option module;
  cdev_dev : Z;
  cdev_count : Z
}.

Record plmem_data := {
  dev : option nat;          (* struct device *dev *)
  mem_start : Z;             (* resource_size_t mem_start *)
  mem_size : Z;              (* unsigned long mem_size *)
  devt : Z;                  (* dev_t devt *)
  cdev_command : cdev;       (* struct cdev cdev_command *)
  mmap_mode : plmem_mode     (* enum plmem_mode mmap_mode *)
}.

Definition zero_cdev : cdev :=
  {| ops := None; owner := None; cdev_dev := 0; cdev_count := 0 |}.

(** What [kzalloc] hands out: every field zero, so [mmap_mode] is the
    enumerator with value 0. *)
Definition zero_plmem_data : plmem_data :=
  {| dev := None; mem_start := 0; mem_size := 0; devt := 0;
     cdev_command := zero_cdev; mmap_mode := noncached |}.

Definition set_dev (v : option nat) (d : plmem_data) : plmem_data :=
  {| dev := v; mem_start := mem_start d; mem_size := mem_size d;
     devt := devt d; cdev_command := cdev_command d; mmap_mode := mmap_mode d |}.
Definition set_mem_start (v : Z) (d : plmem_data) : plmem_data :=
  {| dev := dev d; mem_start := v; mem_size := mem_size d;
     devt := devt d; cdev_command := cdev_command d; mmap_mode := mmap_mode d |}.
Definition set_mem_size (v : Z) (d : plmem_data) : plmem_data :=
  {| dev := dev d; mem_start := mem_start d; mem_size := v;
     devt := devt d; cdev_command := cdev_command d; mmap_mode := mmap_mode d |}.
Definition set_devt (v : Z) (d : plmem_data) : plmem_data :=
  {| dev := dev d; mem_start := mem_start d; mem_size := mem_size d;
     devt := v; cdev_command := cdev_command d; mmap_mode := mmap_mode d |}.
Definition set_cdev_command (v : cdev) (d : plmem_data) : plmem_data :=
  {| dev := dev d; mem_start := mem_start d; mem_size := mem_size d;
     devt := devt d; cdev_command := v; mmap_mode := mmap_mode d |}.
Definition set_mmap_mode (v : plmem_mode) (d : plmem_data) : plmem_data :=
  {| dev := dev d; mem_start := mem_start d; mem_size := mem_size d;
     devt := devt d; cdev_command := cdev_command d; mmap_mode := v |}.

(** ** Kernel state *)

(** One registered range of device numbers ([struct char_device_struct]). *)
Record char_device_struct := {
  cd_major : Z;
  cd_baseminor : Z;
  cd_minorct : Z;
  cd_name : string
}.

(** One entry of [cdev_map], made by [cdev_add]. *)
Record probe := {
  p_dev : Z;
  p_range : Z;
  p_data : cdev_ptr
}.

(** One device of the driver's class, made by [device_create]. *)
Record class_device := {
  node_devt : Z;
  node_parent : option nat;
  node_drvdata : ptr;
  node_name : string         (* the [fmt] argument of [device_create] *)
}.

(** Which kernel-internal steps fail.  The driver cannot influence these;
    every theorem quantifies over them through the state. *)
Record fault_plan := {
  devm_kzalloc_fails : bool;        (* no memory for the driver object *)
  chrdev_kzalloc_fails : bool;      (* no memory for a table entry *)
  kobj_map_error : option errno;    (* [cdev_add] fails with this *)
  device_create_error : option errno (* [device_create] fails with this *)
}.

Record kernel := {
  chrdevs : list char_device_struct;  (* the device-number allocator *)
  cdev_map : list probe;              (* registered handlers *)
  class_devs : list class_device;     (* visible nodes of class plmem *)
  heap : list plmem_data;             (* devm-allocated driver objects *)
  drvdata : gmap nat ptr;             (* dev->driver_data per device *)
  klog : list (option nat * string);  (* messages, oldest first *)
  faults : fault_plan
}.

Definition set_chrdevs (v : list char_device_struct) (k : kernel) : kernel :=
  {| chrdevs := v; cdev_map := cdev_map k; class_devs := class_devs k;
     heap := heap k; drvdata := drvdata k; klog := klog k; faults := faults k |}.
Definition set_cdev_map (v : list probe) (k : kernel) : kernel :=
  {| chrdevs := chrdevs k; cdev_map := v; class_devs := class_devs k;
     heap := heap k; drvdata := drvdata k; klog := klog k; faults := faults k |}.
Definition set_class_devs (v : list class_device) (k : kernel) : kernel :=
  {| chrdevs := chrdevs k; cdev_map := cdev_map k; class_devs := v;
     heap := heap k; drvdata := drvdata k; klog := klog k; faults := faults k |}.
Definition set_heap (v : list plmem_data) (k : kernel) : kernel :=
  {| chrdevs := chrdevs k; cdev_map := cdev_map k; class_devs := class_devs k;
     heap := v; drvdata := drvdata k; klog := klog k; faults := faults k |}.
Definition set_drvdata (v : gmap nat ptr) (k : kernel) : kernel :=
  {| chrdevs := chrdevs k; cdev_map := cdev_map k; class_devs := class_devs k;
     heap := heap k; drvdata := v; klog := klog k; faults := faults k |}.
Definition set_klog (v : list (option nat * string)) (k : kernel) : kernel :=
  {| chrdevs := chrdevs k; cdev_map := cdev_map k; class_devs := class_devs k;
     heap := heap k; drvdata := drvdata k; klog := v; faults := faults k |}.

(** ** Calls, results and faults

    A kernel-context call either returns a value in a new state or does not
    return: it dereferences an invalid pointer, or it spins. *)

Inductive fault := NullDeref | NoReturn.

Inductive outcome (A : Type) :=
| Ret (a : A) (k : kernel)
| Crash (f : fault) (k : kernel).
Arguments Ret {A} a k.
Arguments Crash {A} f k.

Definition call (A : Type) := kernel -> outcome A.

Definition ret {A} (a : A) : call A := fun k => Ret a k.

Definition bind {A B} (c : call A) (f : A -> call B) : call B :=
  fun k => match c k with
           | Ret a k' => f a k'
           | Crash w k' => Crash w k'
           end.

Definition crash {A} (w : fault) : call A := fun k => Crash w k.
Definition get {A} (f : kernel -> A) : call A := fun k => Ret (f k) k.
Definition modify (f : kernel -> kernel) : call unit := fun k => Ret tt (f k).

Declare Scope call_scope.
Delimit Scope call_scope with call.
Notation "x <- c ;; f" := (bind c (fun x => f))
  (at level 100, c at next level, right associativity) : call_scope.
Notation "c ;;; f" := (bind c (fun _ => f))
  (at level 100, right associativity) : call_scope.
Local Open Scope call_scope.

(** The state a call ends in, whether it returned or not. *)
Definition final_state {A} (o : outcome A) : kernel :=
  match o with Ret _ k => k | Crash _ k => k end.

(** ** Heap access *)

(** [*p] for reading: a null or dangling pointer faults. *)
Definition load (p : option ptr) : call plmem_data :=
  match p with
  | None => crash NullDeref
  | Some a => fun k => match heap k !! a with
                       | Some d => Ret d k
                       | None => Crash NullDeref k
                       end
  end.

(** [p->field = v], as an update [f] of the object. *)
Definition store (p : ptr) (f : plmem_data -> plmem_data) : call unit :=
  fun k => match heap k !! p with
           | Some d => Ret tt (set_heap (<[p := f d]> (heap k)) k)
           | None => Crash NullDeref k
           end.

(** [devm_kzalloc(dev, sizeof(struct plmem_data), GFP_KERNEL)]. *)
Definition devm_kzalloc : call (option ptr) :=
  fun k => if devm_kzalloc_fails (faults k) then Ret None k
           else Ret (Some (length (heap k)))
                    (set_heap (heap k ++ [zero_plmem_data]) k).

(** ** The log *)

Definition nl : string := String (ascii_of_nat 10) EmptyString.

(** [dev_err(dev, fmt, ...)], with the message already formatted. *)
Definition dev_err (d : option nat) (msg : string) : call unit :=
  modify (fun k => set_klog (klog k ++ [(d, msg)]) k).

(** [dev_err_probe(dev, err, fmt, ...)]: logs and hands [err] back. *)
Definition dev_err_probe (d : option nat) (err : Z) (msg : string) : call Z :=
  dev_err d msg ;;; ret err.

(** ** The device-number table ([fs/char_dev.c])

    The kernel keeps the registered ranges in 255 hash chains, each ordered by
    major and base minor; [chrdevs] is one list ordered the same way, and a
    chain is the sub-list of the entries whose major hashes to its index. *)

Definition CHRDEV_MAJOR_HASH_SIZE : Z := 255.
Definition CHRDEV_MAJOR_MAX : Z := 512.
Definition CHRDEV_MAJOR_DYN_END : Z := 234.
Definition CHRDEV_MAJOR_DYN_EXT_START : Z := 511.
Definition CHRDEV_MAJOR_DYN_EXT_END : Z := 384.

Definition major_to_index (major : Z) : Z := major mod CHRDEV_MAJOR_HASH_SIZE.

(** [chrdevs[i] == NULL] *)
Definition bucket_empty (tbl : list char_device_struct) (i : Z) : bool :=
  forallb (fun cd => negb (major_to_index (cd_major cd) =? i)) tbl.

(** no entry of the chain has [cd->major == i] *)
Definition major_unused (tbl : list char_device_struct) (i : Z) : bool :=
  forallb (fun cd => negb (cd_major cd =? i)) tbl.

(** [hi, hi - 1, ..., lo] *)
Definition downto (hi lo : Z) : list Z :=
  map (fun j => hi - j) (seqZ 0 (hi - lo + 1)).

Definition find_dynamic_major (tbl : list char_device_struct) : Z :=
  match find (bucket_empty tbl)
             (downto (CHRDEV_MAJOR_HASH_SIZE - 1) CHRDEV_MAJOR_DYN_END) with
  | Some i => i
  | None =>
      match find (major_unused tbl)
                 (downto CHRDEV_MAJOR_DYN_EXT_START CHRDEV_MAJOR_DYN_EXT_END) with
      | Some i => i
      | None => neg EBUSY
      end
  end.

(** The ordered insertion of [__register_chrdev_region]; [None] when the new
    range overlaps a registered one. *)
Fixpoint chain_insert (cd : char_device_struct) (chain : list char_device_struct)
  : option (list char_device_struct) :=
  match chain with
  | [] => Some [cd]
  | curr :: rest =>
      if cd_major curr <? cd_major cd then cons curr <$> chain_insert cd rest
      else if cd_major cd <? cd_major curr then Some (cd :: chain)
      else if cd_baseminor curr + cd_minorct curr <=? cd_baseminor cd
           then cons curr <$> chain_insert cd rest
      else if cd_baseminor cd + cd_minorct cd <=? cd_baseminor curr
           then Some (cd :: chain)
      else None
  end.

Definition __register_chrdev_region (major baseminor minorct : Z) (name : string)
  : call (errno + char_device_struct) :=
  fun k =>
    if CHRDEV_MAJOR_MAX <=? major then Ret (inl EINVAL) k
    else if u32 (MINORMASK + 1 - baseminor) <? u32 minorct then Ret (inl EINVAL) k
    else if chrdev_kzalloc_fails (faults k) then Ret (inl ENOMEM) k
    else
      let dyn := find_dynamic_major (chrdevs k) in
      if (major =? 0) && (dyn <? 0) then Ret (inl EBUSY) k
      else
        let major := if major =? 0 then dyn else major in
        let cd := {| cd_major := major; cd_baseminor := baseminor;
                     cd_minorct := minorct; cd_name := name |} in
        match chain_insert cd (chrdevs k) with
        | Some tbl => Ret (inr cd) (set_chrdevs tbl k)
        | None => Ret (inl EBUSY) k
        end.

(** Unlink the first entry that matches all three numbers, if there is one. *)
Fixpoint __unregister_chrdev_region (major baseminor minorct : Z)
    (chain : list char_device_struct) : list char_device_struct :=
  match chain with
  | [] => []
  | cd :: rest =>
      if (cd_major cd =? major) && (cd_baseminor cd =? baseminor)
         && (cd_minorct cd =? minorct)
      then rest
      else cd :: __unregister_chrdev_region major baseminor minorct rest
  end.

(** [alloc_chrdev_region(&dev, baseminor, count, name)]: the return value and
    the number written to [dev] (0 stands for "not written"). *)
Definition alloc_chrdev_region (baseminor count : Z) (name : string)
  : call (Z * Z) :=
  cd <- __register_chrdev_region 0 baseminor count name ;;
  match cd with
  | inl e => ret (neg e, 0)
  | inr cd => ret (0, MKDEV (cd_major cd) (cd_baseminor cd))
  end.

(** The loop of [unregister_chrdev_region]: one step per major number between
    [n] and [to].  [None] when [fuel] steps do not reach [to]. *)
Fixpoint unregister_chrdev_loop (fuel : nat) (n to : Z)
    (tbl : list char_device_struct) : option (list char_device_struct) :=
  if n <? to then
    match fuel with
    | O => None
    | S fuel' =>
        let next := MKDEV (MAJOR n + 1) 0 in
        let next := if to <? next then to else next in
        unregister_chrdev_loop fuel' next to
          (__unregister_chrdev_region (MAJOR n) (MINOR n) (s32 (u32 (next - n))) tbl)
    end
  else Some tbl.

(** The loop takes one step per major it crosses and a [dev_t] has 4096 of
    them; [NoReturn] stands for a run that is not done after twice as many
    steps (the major wrapped around). *)
Definition MAJOR_STEPS : nat := Z.to_nat 8192.

Definition unregister_chrdev_region (from count : Z) : call unit :=
  fun k =>
    let to := u32 (from + count) in
    match unregister_chrdev_loop MAJOR_STEPS from to (chrdevs k) with
    | Some tbl => Ret tt (set_chrdevs tbl k)
    | None => Crash NoReturn k
    end.

(** ** The cdev map ([cdev_init], [cdev_add]) *)

Definition cdev_init (c : cdev_ptr) (fops : file_operations) : call unit :=
  store (container_of c)
    (set_cdev_command {| ops := Some fops; owner := None;
                         cdev_dev := 0; cdev_count := 0 |}).

Definition set_cdev_owner (m : module) (d : plmem_data) : plmem_data :=
  set_cdev_command {| ops := ops (cdev_command d); owner := Some m;
                      cdev_dev := cdev_dev (cdev_command d);
                      cdev_count := cdev_count (cdev_command d) |} d.

Definition set_cdev_range (dv count : Z) (d : plmem_data) : plmem_data :=
  set_cdev_command {| ops := ops (cdev_command d); owner := owner (cdev_command d);
                      cdev_dev := dv; cdev_count := count |} d.

Definition cdev_add (c : cdev_ptr) (dv count : Z) : call Z :=
  store (container_of c) (set_cdev_range dv count) ;;;
  error <- get (fun k => kobj_map_error (faults k)) ;;
  match error with
  | Some e => ret (neg e)
  | None =>
      modify (fun k => set_cdev_map
                ({| p_dev := dv; p_range := count; p_data := c |} :: cdev_map k) k) ;;;
      ret 0
  end.

(** ** The device class ([device_create], [device_destroy]) *)

(** [device_create(plmem_class, parent, devt, drvdata, fmt)]: [inl e] is
    [ERR_PTR(-e)], [inr d] a valid [struct device *].  The node records the
    format it is given; [dev_name] below is what the kernel makes of it.
    Whether the call fails is left to the fault plan, which stands for every
    reason the kernel can have (no memory, a name that is empty or taken). *)
Definition device_create (parent : option nat) (dv : Z) (data : ptr) (fmt : string)
  : call (errno + class_device) :=
  error <- get (fun k => device_create_error (faults k)) ;;
  match error with
  | Some e => ret (inl e)
  | None =>
      let d := {| node_devt := dv; node_parent := parent;
                  node_drvdata := data; node_name := fmt |} in
      modify (fun k => set_class_devs (class_devs k ++ [d]) k) ;;;
      ret (inr d)
  end.

Fixpoint remove_node (dv : Z) (l : list class_device) : list class_device :=
  match l with
  | [] => []
  | d :: rest => if node_devt d =? dv then rest else d :: remove_node dv rest
  end.

Definition device_destroy (dv : Z) : call unit :=
  modify (fun k => set_class_devs (remove_node dv (class_devs k)) k).

(** ** The name of a class device ([lib/kasprintf.c], [lib/kobject.c])

    [device_create] takes a printf format and its arguments; the node above
    keeps the format it was created with, and the kernel names the device by
    formatting it.  The driver passes no arguments, so only that case is
    modelled: an ordinary character is copied, ["%%"] gives one per-cent sign,
    and any other conversion reads an argument that is not there, which leaves
    the name undetermined ([None]). *)

Fixpoint kvasprintf_no_args (fmt : string) : option string :=
  match fmt with
  | EmptyString => Some EmptyString
  | String c rest =>
      if Ascii.eqb c "%" then
        match rest with
        | String c' rest' =>
            if Ascii.eqb c' "%" then String "%" <$> kvasprintf_no_args rest'
            else None
        | EmptyString => None
        end
      else String c <$> kvasprintf_no_args rest
  end.

Fixpoint strreplace (s : string) (old new : ascii) : string :=
  match s with
  | EmptyString => EmptyString
  | String c rest =>
      String (if Ascii.eqb c old then new else c) (strreplace rest old new)
  end.

Fixpoint strchr (s : string) (c : ascii) : bool :=
  match s with
  | EmptyString => false
  | String c' rest => Ascii.eqb c' c || strchr rest c
  end.

(** [kobject_set_name_vargs]: the formatted string with every slash turned
    into an exclamation mark. *)
Definition kobject_set_name (fmt : string) : option string :=
  (fun s => strreplace s "/" "!") <$> kvasprintf_no_args fmt.

(** [dev_name(dev)] of a node. *)
Definition dev_name (nd : class_device) : option string :=
  kobject_set_name (node_name nd).

(** ** Platform devices and firmware properties *)

Record resource := {
  res_start : Z;
  res_end : Z;
  res_flags : Z
}.

Definition IORESOURCE_TYPE_BITS : Z := 0x1f00.
Definition IORESOURCE_IO : Z := 0x100.
Definition IORESOURCE_MEM : Z := 0x200.
Definition IORESOURCE_IRQ : Z := 0x400.

Definition resource_type (r : resource) : Z :=
  Z.land (res_flags r) IORESOURCE_TYPE_BITS.

Record platform_device := {
  pdev_dev : nat;                          (* &pdev->dev *)
  pdev_resources : list resource;
  pdev_compatible : list string;           (* the "compatible" strings *)
  pdev_properties : list (string * string) (* string-valued properties; a value
                                              is the text before its NUL *)
}.

(** The [num]-th resource of the given type, or [NULL]. *)
Fixpoint get_resource (rs : list resource) (type : Z) (num : nat) : option resource :=
  match rs with
  | [] => None
  | r :: rs' =>
      if resource_type r =? type then
        match num with
        | O => Some r
        | S num' => get_resource rs' type num'
        end
      else get_resource rs' type num
  end.

Definition platform_get_resource (pdev : platform_device) (type : Z) (num : nat)
  : option resource := get_resource (pdev_resources pdev) type num.

Definition device_is_compatible (pdev : platform_device) (compat : string) : bool :=
  existsb (String.eqb compat) (pdev_compatible pdev).

Fixpoint find_property (name : string) (ps : list (string * string)) : option string :=
  match ps with
  | [] => None
  | (n, v) :: ps' => if String.eqb n name then Some v else find_property name ps'
  end.

(** [device_property_read_string(dev, name, &val)]: the return value and the
    content of [val] afterwards; [val] is written only on success.  A property
    that exists but holds no string makes the call fail as an absent one
    does, and the driver tests the return value against 0 only. *)
Definition device_property_read_string (pdev : platform_device) (name : string)
    (val : string) : Z * string :=
  match find_property name (pdev_properties pdev) with
  | Some v => (0, v)
  | None => (neg EINVAL, val)
  end.

Definition platform_set_drvdata (pdev : platform_device) (data : ptr) : call unit :=
  modify (fun k => set_drvdata (<[pdev_dev pdev := data]> (drvdata k)) k).

Definition dev_get_drvdata (d : nat) : call (option ptr) :=
  get (fun k => drvdata k !! d).

(** ** Files, inodes and memory mappings *)

Record file := { private_data : option ptr }.

Record inode := { i_rdev : Z; i_cdev : cdev_ptr }.

Record vm_area_struct := {
  vm_start : Z;
  vm_end : Z;
  vm_pgoff : Z;
  vm_page_prot : Z;
  vm_flags : Z
}.

Definition set_vm_page_prot (v : Z) (vma : vm_area_struct) : vm_area_struct :=
  {| vm_start := vm_start vma; vm_end := vm_end vma; vm_pgoff := vm_pgoff vma;
     vm_page_prot := v; vm_flags := vm_flags vma |}.

(** The architecture's page-attribute macros and the mapping helper of the
    memory-management subsystem.  [vm_iomap_memory vma start len] gets the
    region by value; it yields its return code and the populated [vma]. *)
Class mm_ops := {
  pgprot_noncached : Z -> Z;
  pgprot_writecombine : Z -> Z;
  vm_iomap_memory : vm_area_struct -> Z -> Z -> Z * vm_area_struct
}.

(* ===================================================================== *)
(** * Part 2: the driver ([plmem.c])                                      *)
(* ===================================================================== *)

Definition DRIVER_CLASS_NAME : string := "plmem".

Definition NUMBER_OF_CDEV : Z := 1.

Definition plmem_mmap `{mm_ops} (filp : file) (vma : vm_area_struct)
  : call (Z * vm_area_struct) :=
  let data := private_data filp in
  d <- load data ;;
  let vma :=
    match mmap_mode d with
    | noncached => set_vm_page_prot (pgprot_noncached (vm_page_prot vma)) vma
    | writecombine => set_vm_page_prot (pgprot_writecombine (vm_page_prot vma)) vma
    | _ => vma
    end in
  ret (vm_iomap_memory vma (mem_start d) (mem_size d)).

Definition plmem_ioctl (filp : file) (cmd arg : Z) : call Z :=
  ret (neg ENOTTY).

Definition plmem_open (ino : inode) (filp : file) : call (Z * file) :=
  let data := container_of (i_cdev ino) in
  let filp := {| private_data := Some data |} in
  ret (0, filp).

Definition plmem_release (ino : inode) (filp : file) : call Z :=
  ret 0.

(** The calls user space can make on an open file of the device, and the
    table [plmem_fops] that routes each to its handler.  A handler's result
    is its return code, the file and, for [mmap], the mapping. *)
Inductive file_call :=
| call_mmap (vma : vm_area_struct)
| call_unlocked_ioctl (cmd arg : Z)
| call_open (ino : inode)
| call_release (ino : inode).

Definition plmem_fops `{mm_ops} (c : file_call) (filp : file)
  : call (Z * file * option vm_area_struct) :=
  match c with
  | call_mmap vma =>
      r <- plmem_mmap filp vma ;; ret (fst r, filp, Some (snd r))
  | call_unlocked_ioctl cmd arg =>
      r <- plmem_ioctl filp cmd arg ;; ret (r, filp, None)
  | call_open ino =>
      r <- plmem_open ino filp ;; ret (fst r, snd r, None)
  | call_release ino =>
      r <- plmem_release ino filp ;; ret (r, filp, None)
  end.

Definition plmem_create_cdev (data : ptr) (label : string) : call Z :=
  d <- load (Some data) ;;
  let device := dev d in
  r <- alloc_chrdev_region 0 NUMBER_OF_CDEV DRIVER_CLASS_NAME ;;
  let '(rc, dv) := r in
  if rc <? 0 then ret rc
  else
    let failed_cdev (rc : Z) : call Z :=
      unregister_chrdev_region dv NUMBER_OF_CDEV ;;; ret rc in
    let failed_device_create := failed_cdev in
    store data (set_devt dv) ;;;
    cdev_init (cdev_command_of data) plmem_fops_table ;;;
    store data (set_cdev_owner THIS_MODULE) ;;;
    rc <- cdev_add (cdev_command_of data) dv 1 ;;
    if negb (rc =? 0) then
      dev_err device ("cdev_add() failed" +:+ nl) ;;;
      failed_cdev rc
    else
      char_device <- device_create device dv data label ;;
      match char_device with
      | inl e =>
          dev_err device ("unable to create device " +:+ label +:+ nl) ;;;
          failed_device_create (neg e)
      | inr _ => ret 0
      end.

Definition plmem_probe (pdev : platform_device) : call Z :=
  let label := "plmem" in
  data <- devm_kzalloc ;;
  match data with
  | None => ret (neg ENOMEM)
  | Some data =>
      platform_set_drvdata pdev data ;;;
      store data (set_dev (Some (pdev_dev pdev))) ;;;
      match platform_get_resource pdev IORESOURCE_MEM 0 with
      | None => crash NullDeref
      | Some res =>
          store data (set_mem_start (res_start res)) ;;;
          store data (set_mem_size (ulong (res_end res - res_start res + 1))) ;;;
          (if device_is_compatible pdev "topic,iotester"
           then store data (set_mmap_mode noncached)
           else store data (set_mmap_mode writecombine)) ;;;
          let publish : call Z :=
            let '(rc, label) := device_property_read_string pdev "label" label in
            (if negb (rc =? 0)
             then dev_err (Some (pdev_dev pdev))
                    ("No label, using default: " +:+ label +:+ nl)
             else ret tt) ;;;
            rc <- plmem_create_cdev data label ;;
            ret rc in
          let '(rc, mem_type) :=
            device_property_read_string pdev "topic,mem-type" "" in
          if rc =? 0 then
            if String.eqb mem_type "writecombine" then
              store data (set_mmap_mode writecombine) ;;; publish
            else if String.eqb mem_type "cached" then
              store data (set_mmap_mode cached) ;;; publish
            else if String.eqb mem_type "noncached" then
              store data (set_mmap_mode noncached) ;;; publish
            else
              dev_err_probe (Some (pdev_dev pdev)) (neg EINVAL)
                ("Invalid mem-type: " +:+ mem_type +:+ nl)
          else publish
      end
  end.

(** The body of [for (i = 0; i < NUMBER_OF_CDEV; ++i)], for the values of [i]
    in the list. *)
Fixpoint destroy_nodes (data : option ptr) (idx : list Z) : call unit :=
  match idx with
  | [] => ret tt
  | i :: idx' =>
      d <- load data ;;
      device_destroy (u32 (devt d + i)) ;;;
      destroy_nodes data idx'
  end.

Definition plmem_remove (pdev : platform_device) : call unit :=
  data <- dev_get_drvdata (pdev_dev pdev) ;;
  destroy_nodes data (seqZ 0 NUMBER_OF_CDEV) ;;;
  d <- load data ;;
  unregister_chrdev_region (devt d) (u32 (devt d + NUMBER_OF_CDEV - 1)).

(** ** States the driver passes through

    Names for the objects and states that the statements below talk about. *)

(** A registered range of device numbers. *)
Definition region (major baseminor minorct : Z) (name : string)
  : char_device_struct :=
  {| cd_major := major; cd_baseminor := baseminor;
     cd_minorct := minorct; cd_name := name |}.

(** The embedded cdev once [cdev_init], the owner assignment and [cdev_add]
    have run for device number [dv]. *)
Definition published_cdev (dv : Z) : cdev :=
  {| ops := Some plmem_fops_table; owner := Some THIS_MODULE;
     cdev_dev := dv; cdev_count := 1 |}.

(** The driver object of [pdev] when [plmem_probe] has read the memory
    resource [res] and settled on [mode]. *)
Definition resolved_data (pdev : platform_device) (res : resource)
    (mode : plmem_mode) : plmem_data :=
  {| dev := Some (pdev_dev pdev);
     mem_start := res_start res;
     mem_size := ulong (res_end res - res_start res + 1);
     devt := 0; cdev_command := zero_cdev; mmap_mode := mode |}.

(** The kernel at that point: the object is the newest on the heap and is the
    driver data of [pdev]. *)
Definition resolved_state (pdev : platform_device) (res : resource)
    (mode : plmem_mode) (k : kernel) : kernel :=
  set_heap (heap k ++ [resolved_data pdev res mode])
    (set_drvdata (<[pdev_dev pdev := length (heap k)]> (drvdata k)) k).

(** A session on one open file: the calls are routed through [plmem_fops] one
    after the other, each seeing the file as the previous one left it.  The
    result is the list of return codes. *)
Fixpoint session `{mm_ops} (calls : list file_call) (filp : file)
  : call (list Z * file) :=
  match calls with
  | [] => ret ([], filp)
  | c :: calls' =>
      r <- plmem_fops c filp ;;
      rs <- session calls' (snd (fst r)) ;;
      ret (fst (fst r) :: fst rs, snd rs)
  end.

(** ** Sample inputs

    Concrete devices and kernel states on which the statements are run. *)

Definition no_faults : fault_plan :=
  {| devm_kzalloc_fails := false; chrdev_kzalloc_fails := false;
     kobj_map_error := None; device_create_error := None |}.

(** A kernel with nothing registered. *)
Definition boot : kernel :=
  {| chrdevs := []; cdev_map := []; class_devs := []; heap := [];
     drvdata := ∅; klog := []; faults := no_faults |}.

(** The same kernel, with [device_create] failing on a name collision. *)
Definition boot_name_taken : kernel :=
  {| chrdevs := []; cdev_map := []; class_devs := []; heap := [];
     drvdata := ∅; klog := [];
     faults := {| devm_kzalloc_fails := false; chrdev_kzalloc_fails := false;
                  kobj_map_error := None; device_create_error := Some EEXIST |} |}.

Definition ram_64k : resource :=
  {| res_start := 0x40000000; res_end := 0x4000ffff; res_flags := IORESOURCE_MEM |}.

(** A plain region with a label. *)
Definition fpga_ram : platform_device :=
  {| pdev_dev := 7%nat; pdev_resources := [ram_64k];
     pdev_compatible := ["topic,plmem"];
     pdev_properties := [("label", "fpga0")] |}.

(** A tester node without properties. *)
Definition iotester : platform_device :=
  {| pdev_dev := 8%nat; pdev_resources := [ram_64k];
     pdev_compatible := ["topic,iotester"];
     pdev_properties := [] |}.

(** A tester node that asks for cached mappings. *)
Definition iotester_cached : platform_device :=
  {| pdev_dev := 9%nat; pdev_resources := [ram_64k];
     pdev_compatible := ["topic,iotester"];
     pdev_properties := [("topic,mem-type", "cached")] |}.

(** A node with a misspelt memory type. *)
Definition bogus_mem_type : platform_device :=
  {| pdev_dev := 10%nat; pdev_resources := [ram_64k];
     pdev_compatible := ["topic,plmem"];
     pdev_properties := [("topic,mem-type", "bogus"); ("label", "fpga1")] |}.

(** A node without a [reg] property: it has an interrupt and no memory. *)
Definition no_memory : platform_device :=
  {| pdev_dev := 11%nat;
     pdev_resources := [{| res_start := 42; res_end := 42;
                           res_flags := IORESOURCE_IRQ |}];
     pdev_compatible := ["topic,plmem"];
     pdev_properties := [("label", "fpga2")] |}.

(** A kernel in which another driver holds all of major 300. *)
Definition boot_with_major_300 : kernel :=
  {| chrdevs := [region 300 0 (2 ^ 20) "other"]; cdev_map := []; class_devs := [];
     heap := []; drvdata := ∅; klog := []; faults := no_faults |}.

(** The kernel after [fpga_ram] has been probed at boot, the device number it
    was given, and a file and an inode of that device. *)
Definition fpga_ram_probed : kernel := final_state (plmem_probe fpga_ram boot).

Definition fpga_ram_devt : Z := MKDEV 254 0.

Definition fpga_ram_inode : inode :=
  {| i_rdev := fpga_ram_devt; i_cdev := cdev_command_of 0%nat |}.

Definition fpga_ram_file : file := {| private_data := Some 0%nat |}.

(** A memory-management instance for the examples: the attribute macros set
    one bit each, and the helper accepts a mapping that fits the region. *)
Definition sample_mm_ops : mm_ops :=
  {| pgprot_noncached := fun prot => Z.lor prot 1;
     pgprot_writecombine := fun prot => Z.lor prot 2;
     vm_iomap_memory := fun vma start len =>
       if vm_end vma - vm_start vma <=? len then (0, vma) else (neg EINVAL, vma) |}.

Definition sample_vma : vm_area_struct :=
  {| vm_start := 0x7f0000000000; vm_end := 0x7f0000010000; vm_pgoff := 0;
     vm_page_prot := 0x40; vm_flags := 0 |}.

(** The state after a successful publication of [data]: [tbl] is the table
    with the new range entered. *)
Definition published_state (k : kernel) (data : ptr) (label : string)
    (d : plmem_data) (tbl : list char_device_struct) : kernel :=
  let dv := MKDEV (find_dynamic_major (chrdevs k)) 0 in
  set_class_devs
    (class_devs k ++ [{| node_devt := dv; node_parent := dev d;
                         node_drvdata := data; node_name := label |}])
    (set_cdev_map
       ({| p_dev := dv; p_range := 1; p_data := cdev_command_of data |} :: cdev_map k)
       (set_chrdevs tbl
          (set_heap
             (<[data := set_cdev_command (published_cdev dv) (set_devt dv d)]> (heap k))
             k))).

(** What a probe that got past the resource lookup leaves behind, in terms of
    the state [k] it started from: [rc] is its return code, [k'] the state it
    returns in and [d'] the driver object of the device. *)
Definition probe_result (pdev : platform_device) (res : resource) (k : kernel)
    (rc : Z) (k' : kernel) (d' : plmem_data) : Prop :=
  heap k' = heap k ++ [d'] /\
  drvdata k' = <[pdev_dev pdev := length (heap k)]> (drvdata k) /\
  dev d' = Some (pdev_dev pdev) /\
  mem_start d' = res_start res /\
  mem_size d' = ulong (res_end res - res_start res + 1) /\
  ((rc < 0 /\ chrdevs k' = chrdevs k /\ class_devs k' = class_devs k /\
    (cdev_map k' = cdev_map k \/ exists pr, cdev_map k' = pr :: cdev_map k))
   \/
   (rc = 0 /\
    exists label,
      let dv := MKDEV (find_dynamic_major (chrdevs k)) 0 in
      0 <= find_dynamic_major (chrdevs k) /\
      chain_insert (region (find_dynamic_major (chrdevs k)) 0 1 "plmem") (chrdevs k)
        = Some (chrdevs k') /\
      class_devs k' =
        class_devs k ++ [{| node_devt := dv; node_parent := Some (pdev_dev pdev);
                            node_drvdata := length (heap k); node_name := label |}] /\
      cdev_map k' =
        {| p_dev := dv; p_range := 1;
           p_data := cdev_command_of (length (heap k)) |} :: cdev_map k /\
      devt d' = dv /\
      cdev_command d' = published_cdev dv)).

(** A node whose label holds a per-cent sign, written twice. *)
Definition percent_label : platform_device :=
  {| pdev_dev := 13%nat; pdev_resources := [ram_64k];
     pdev_compatible := ["topic,plmem"];
     pdev_properties := [("label", "bank%%0")] |}.

(** More sample kernels: [cdev_add] failing, no memory for the driver object,
    and every dynamic major taken by other drivers. *)
Definition boot_cdev_add_fails : kernel :=
  {| chrdevs := []; cdev_map := []; class_devs := []; heap := [];
     drvdata := ∅; klog := [];
     faults := {| devm_kzalloc_fails := false; chrdev_kzalloc_fails := false;
                  kobj_map_error := Some ENOMEM; device_create_error := None |} |}.

Definition boot_no_memory : kernel :=
  {| chrdevs := []; cdev_map := []; class_devs := []; heap := [];
     drvdata := ∅; klog := [];
     faults := {| devm_kzalloc_fails := true; chrdev_kzalloc_fails := false;
                  kobj_map_error := None; device_create_error := None |} |}.

Definition boot_majors_exhausted : kernel :=
  {| chrdevs := map (fun m => region m 0 1 "other")
                  (rev (downto 254 234) ++ rev (downto 511 384));
     cdev_map := []; class_devs := []; heap := [];
     drvdata := ∅; klog := []; faults := no_faults |}.

Definition regs_4k : resource :=
  {| res_start := 0x80000000; res_end := 0x80000fff; res_flags := IORESOURCE_MEM |}.

(** A second region, of registers. *)
Definition fpga_regs : platform_device :=
  {| pdev_dev := 12%nat;
     pdev_resources := [regs_4k];
     pdev_compatible := ["topic,plmem"];
     pdev_properties := [("label", "regs0"); ("topic,mem-type", "noncached")] |}.

(** Both sample regions resolved, neither published yet; then the first
    published, then the second. *)
Definition two_resolved : kernel :=
  resolved_state fpga_regs regs_4k noncached
    (resolved_state fpga_ram ram_64k writecombine boot).

Definition one_published : kernel :=
  final_state (plmem_create_cdev 0%nat "fpga0" two_resolved).

Definition two_published : kernel :=
  final_state (plmem_create_cdev 1%nat "regs0" one_published).

(** [fpga_ram] probed, removed, and its object published again. *)
Definition fpga_ram_removed : kernel :=
  final_state (plmem_remove fpga_ram fpga_ram_probed).

Definition fpga_ram_republished : kernel :=
  final_state (plmem_create_cdev 0%nat "again" fpga_ram_removed).

(* ===================================================================== *)
(** * Part 3: properties                                                  *)
(* ===================================================================== *)

(** ** Device-number arithmetic *)

Lemma MKDEV_major_0 (ma : Z) :
  0 <= ma < 4096 -> MKDEV ma 0 = ma * 2 ^ 20.
Proof.
  intros Hma. unfold MKDEV, u32, MINORBITS.
  rewrite Z.lor_0_r, Z.shiftl_mul_pow2 by lia.
  apply Z.mod_small. lia.
Qed.

Lemma MAJOR_mul (ma : Z) : MAJOR (ma * 2 ^ 20) = ma.
Proof.
  unfold MAJOR, MINORBITS. rewrite Z.shiftr_div_pow2 by lia.
  apply Z.div_mul. lia.
Qed.

Lemma MINOR_mul (ma : Z) : MINOR (ma * 2 ^ 20) = 0.
Proof.
  unfold MINOR, MINORMASK, MINORBITS.
  change (Z.shiftl 1 20 - 1) with (Z.ones 20).
  rewrite Z.land_ones by lia. apply Z.mod_mul. lia.
Qed.

(** ** The device-number table *)

Lemma in_downto (hi lo i : Z) : In i (downto hi lo) -> lo <= i <= hi.
Proof.
  unfold downto. rewrite in_map_iff. intros (j & <- & Hj).
  apply list_elem_of_In, elem_of_seqZ in Hj. lia.
Qed.

Lemma bucket_empty_unused (tbl : list char_device_struct) (i : Z) :
  0 <= i < CHRDEV_MAJOR_HASH_SIZE ->
  bucket_empty tbl i = true -> major_unused tbl i = true.
Proof.
  intros Hi. unfold bucket_empty, major_unused.
  rewrite !forallb_forall. intros Hb cd Hin.
  specialize (Hb cd Hin). cbv beta in *.
  destruct (Z.eqb_spec (cd_major cd) i) as [Heq|]; [|done].
  unfold major_to_index in Hb. rewrite Heq, Z.mod_small, Z.eqb_refl in Hb; done.
Qed.

(** A dynamically chosen major lies in one of the two dynamic ranges and has
    no entry in the table. *)
Lemma find_dynamic_major_spec (tbl : list char_device_struct) :
  0 <= find_dynamic_major tbl ->
  CHRDEV_MAJOR_DYN_END <= find_dynamic_major tbl <= CHRDEV_MAJOR_DYN_EXT_START
  /\ major_unused tbl (find_dynamic_major tbl) = true.
Proof.
  unfold find_dynamic_major.
  destruct (find (bucket_empty tbl) _) as [i|] eqn:H1.
  - apply find_some in H1 as [Hin Hb]. apply in_downto in Hin.
    unfold CHRDEV_MAJOR_HASH_SIZE, CHRDEV_MAJOR_DYN_END,
      CHRDEV_MAJOR_DYN_EXT_START in *.
    intros _. split; [lia|]. apply bucket_empty_unused; [|done].
    unfold CHRDEV_MAJOR_HASH_SIZE. lia.
  - destruct (find (major_unused tbl) _) as [i|] eqn:H2.
    + apply find_some in H2 as [Hin Hb]. apply in_downto in Hin.
      unfold CHRDEV_MAJOR_DYN_END, CHRDEV_MAJOR_DYN_EXT_START,
        CHRDEV_MAJOR_DYN_EXT_END in *.
      intros _. split; [lia|done].
    + unfold neg. simpl. lia.
Qed.

Lemma major_unused_not_in (tbl : list char_device_struct) (cd : char_device_struct) :
  major_unused tbl (cd_major cd) = true -> ~ In cd tbl.
Proof.
  unfold major_unused. rewrite forallb_forall. intros H Hin.
  specialize (H cd Hin). cbv beta in H. rewrite Z.eqb_refl in H. done.
Qed.

(** Registering a range under an unused major always succeeds, and
    unregistering exactly that range undoes it. *)
Lemma chain_insert_unused (cd : char_device_struct) (tbl : list char_device_struct) :
  major_unused tbl (cd_major cd) = true ->
  exists tbl',
    chain_insert cd tbl = Some tbl' /\ In cd tbl' /\
    __unregister_chrdev_region (cd_major cd) (cd_baseminor cd) (cd_minorct cd) tbl'
      = tbl.
Proof.
  induction tbl as [|curr rest IH]; simpl; intros Hun.
  - eexists; split; [done|]. split; [by left|].
    simpl. by rewrite !Z.eqb_refl.
  - apply andb_prop in Hun as [Hc Hrest].
    destruct (Z.ltb_spec (cd_major curr) (cd_major cd)) as [Hlt|Hge].
    + destruct (IH Hrest) as (tbl' & -> & Hin & Hun'). simpl.
      eexists; split; [done|]. split; [by right|]. simpl.
      destruct (Z.eqb_spec (cd_major curr) (cd_major cd)); [lia|].
      simpl. by rewrite Hun'.
    + destruct (Z.ltb_spec (cd_major cd) (cd_major curr)) as [Hlt|Hge'].
      * eexists; split; [done|]. split; [by left|].
        simpl. by rewrite !Z.eqb_refl.
      * destruct (Z.eqb_spec (cd_major curr) (cd_major cd)); [done|lia].
Qed.

(** Unregistering never drops an entry whose minor count differs from the
    count asked for. *)
Lemma unregister_keeps (major baseminor minorct : Z) (cd : char_device_struct)
    (tbl : list char_device_struct) :
  cd_minorct cd <> minorct -> In cd tbl ->
  In cd (__unregister_chrdev_region major baseminor minorct tbl).
Proof.
  intros Hne. induction tbl as [|c rest IH]; simpl; [done|].
  intros [->|Hin].
  - destruct (Z.eqb_spec (cd_minorct cd) minorct); [done|].
    rewrite andb_false_r. by left.
  - destruct (_ && _); [done|]. right. by apply IH.
Qed.

Lemma MAJOR_STEPS_pos : MAJOR_STEPS = S (Nat.pred MAJOR_STEPS).
Proof. vm_compute. reflexivity. Qed.

(** Releasing one minor at [MKDEV major 0] is a single exact unregistration. *)
Lemma unregister_chrdev_loop_one (fuel : nat) (major : Z)
    (tbl : list char_device_struct) :
  0 <= major < 4095 ->
  unregister_chrdev_loop (S fuel) (MKDEV major 0)
    (u32 (MKDEV major 0 + NUMBER_OF_CDEV)) tbl
  = Some (__unregister_chrdev_region major 0 1 tbl).
Proof.
  intros Hm. rewrite MKDEV_major_0 by lia. unfold NUMBER_OF_CDEV, u32.
  rewrite (Z.mod_small (_ + 1)) by lia.
  cbn [unregister_chrdev_loop].
  destruct (Z.ltb_spec (major * 2 ^ 20) (major * 2 ^ 20 + 1)); [|lia].
  rewrite MAJOR_mul, MINOR_mul, MKDEV_major_0 by lia.
  destruct (Z.ltb_spec (major * 2 ^ 20 + 1) ((major + 1) * 2 ^ 20)); [|lia].
  replace (major * 2 ^ 20 + 1 - major * 2 ^ 20) with 1 by lia.
  change (s32 (1 mod 2 ^ 32)) with 1.
  destruct fuel; cbn [unregister_chrdev_loop]; by rewrite Z.ltb_irrefl.
Qed.

(** Releasing [major * 2^20] minors at [MKDEV major 0], as [plmem_remove]
    asks for, walks the majors [j .. top - 1] and asks each time for a
    whole major of [2^20] minors. *)
Lemma unregister_chrdev_loop_majors (fuel : nat) (j top : Z)
    (tbl : list char_device_struct) :
  0 <= j <= top -> top < 4096 -> (Z.to_nat (top - j) <= fuel)%nat ->
  exists tbl',
    unregister_chrdev_loop fuel (j * 2 ^ 20) (top * 2 ^ 20) tbl = Some tbl' /\
    forall cd, cd_minorct cd <> 2 ^ 20 -> In cd tbl -> In cd tbl'.
Proof.
  revert j tbl. induction fuel as [|fuel IH]; intros j tbl Hj Htop Hfuel.
  - assert (j = top) as -> by lia. simpl. rewrite Z.ltb_irrefl. eauto.
  - cbn [unregister_chrdev_loop].
    destruct (Z.ltb_spec (j * 2 ^ 20) (top * 2 ^ 20)) as [Hlt|Hge]; [|eauto].
    assert (j < top) by lia.
    rewrite MAJOR_mul, MINOR_mul, MKDEV_major_0 by lia.
    destruct (Z.ltb_spec (top * 2 ^ 20) ((j + 1) * 2 ^ 20)); [lia|].
    replace ((j + 1) * 2 ^ 20 - j * 2 ^ 20) with (2 ^ 20) by lia.
    change (s32 (u32 (2 ^ 20))) with (2 ^ 20).
    destruct (IH (j + 1) (__unregister_chrdev_region j 0 (2 ^ 20) tbl))
      as (tbl' & -> & Hkeep); [lia|lia|lia|].
    eexists; split; [done|]. intros cd Hne Hin.
    apply Hkeep; [done|]. by apply unregister_keeps.
Qed.

(** ** Running calls *)

Lemma bind_ret_r {A} (c : call A) (k : kernel) :
  bind c (fun x => ret x) k = c k.
Proof. unfold bind, ret. by destruct (c k). Qed.

Lemma outcome_eta {A} (o : outcome A) :
  match o with Ret a k' => Ret a k' | Crash w k' => Crash w k' end = o.
Proof. by destruct o. Qed.

Lemma load_at (k : kernel) (p : ptr) (d : plmem_data) :
  heap k !! p = Some d -> load (Some p) k = Ret d k.
Proof. intros H. unfold load. by rewrite H. Qed.

Lemma lookup_stored (h : list plmem_data) (p : ptr) (d : plmem_data) :
  h !! p = Some d -> forall x, <[p := x]> h !! p = Some x.
Proof. intros H x. apply list_lookup_insert_eq. by eapply lookup_lt_Some. Qed.

Lemma snoc_lookup (h : list plmem_data) (x : plmem_data) :
  (h ++ [x]) !! length h = Some x.
Proof. by rewrite list_lookup_middle. Qed.

Lemma snoc_insert (h : list plmem_data) (x y : plmem_data) :
  <[length h := y]> (h ++ [x]) = h ++ [y].
Proof. rewrite insert_app_r_alt by lia. by rewrite Nat.sub_diag. Qed.

Lemma neg_nonzero (e : errno) : negb (neg e =? 0) = true.
Proof. by destruct e. Qed.

Lemma neg_negative (e : errno) : neg e < 0.
Proof. destruct e; unfold neg; simpl; lia. Qed.

(** Reduce the field accesses on explicit states, and nothing else. *)
Ltac proj :=
  cbn [heap chrdevs cdev_map class_devs drvdata klog faults
       set_heap set_chrdevs set_cdev_map set_class_devs set_drvdata set_klog
       container_of fst snd].

(** ** Publishing: [plmem_create_cdev] *)

(** With a free dynamic major, allocation hands out [MKDEV major 0] and enters
    the one-minor range in the table; unregistering that range restores the
    table. *)
Lemma alloc_chrdev_region_ok (k : kernel) :
  chrdev_kzalloc_fails (faults k) = false ->
  0 <= find_dynamic_major (chrdevs k) ->
  exists tbl,
    let major := find_dynamic_major (chrdevs k) in
    alloc_chrdev_region 0 NUMBER_OF_CDEV DRIVER_CLASS_NAME k
      = Ret (0, MKDEV major 0) (set_chrdevs tbl k) /\
    chain_insert (region major 0 1 "plmem") (chrdevs k) = Some tbl /\
    In (region major 0 1 "plmem") tbl /\
    ~ In (region major 0 1 "plmem") (chrdevs k) /\
    __unregister_chrdev_region major 0 1 tbl = chrdevs k /\
    CHRDEV_MAJOR_DYN_END <= major <= CHRDEV_MAJOR_DYN_EXT_START.
Proof.
  intros Hf Hd.
  destruct (find_dynamic_major_spec _ Hd) as [Hr Hun].
  destruct (chain_insert_unused (region (find_dynamic_major (chrdevs k)) 0 1 "plmem")
              (chrdevs k) Hun) as (tbl & Hins & Hin & Hback).
  exists tbl. cbv zeta. split; [|split; [done|split; [done|split; [|done]]]].
  - unfold alloc_chrdev_region, bind, __register_chrdev_region.
    simpl. rewrite Hf.
    destruct (Z.ltb_spec (find_dynamic_major (chrdevs k)) 0); [lia|].
    unfold region in Hins. unfold NUMBER_OF_CDEV, DRIVER_CLASS_NAME. by rewrite Hins.
  - by apply major_unused_not_in.
Qed.

Lemma alloc_chrdev_region_fails (k : kernel) :
  chrdev_kzalloc_fails (faults k) = true \/ find_dynamic_major (chrdevs k) < 0 ->
  exists e, alloc_chrdev_region 0 NUMBER_OF_CDEV DRIVER_CLASS_NAME k
            = Ret (neg e, 0) k.
Proof.
  intros H. unfold alloc_chrdev_region, bind, __register_chrdev_region. simpl.
  destruct (chrdev_kzalloc_fails (faults k)); [by exists ENOMEM|].
  destruct H as [|H]; [done|].
  destruct (Z.ltb_spec (find_dynamic_major (chrdevs k)) 0); [|lia].
  by exists EBUSY.
Qed.

(** What [plmem_create_cdev] does once allocation succeeds, for each way the
    two later steps can go. *)
Lemma plmem_create_cdev_run (k : kernel) (data : ptr) (label : string)
    (d : plmem_data) :
  heap k !! data = Some d ->
  chrdev_kzalloc_fails (faults k) = false ->
  0 <= find_dynamic_major (chrdevs k) ->
  exists tbl,
    let major := find_dynamic_major (chrdevs k) in
    let dv := MKDEV major 0 in
    let d' := set_cdev_command (published_cdev dv) (set_devt dv d) in
    let k1 := set_heap (<[data := d']> (heap k)) k in
    let pr := {| p_dev := dv; p_range := 1; p_data := cdev_command_of data |} in
    let nd := {| node_devt := dv; node_parent := dev d;
                 node_drvdata := data; node_name := label |} in
    (chain_insert (region major 0 1 "plmem") (chrdevs k) = Some tbl /\
     In (region major 0 1 "plmem") tbl /\
     ~ In (region major 0 1 "plmem") (chrdevs k) /\
     CHRDEV_MAJOR_DYN_END <= major <= CHRDEV_MAJOR_DYN_EXT_START) /\
    plmem_create_cdev data label k =
      match kobj_map_error (faults k), device_create_error (faults k) with
      | Some e, _ =>
          Ret (neg e)
            (set_klog (klog k ++ [(dev d, "cdev_add() failed" +:+ nl)]) k1)
      | None, Some e =>
          Ret (neg e)
            (set_klog
               (klog k ++ [(dev d, "unable to create device " +:+ label +:+ nl)])
               (set_cdev_map (pr :: cdev_map k) k1))
      | None, None =>
          Ret 0 (set_class_devs (class_devs k ++ [nd])
                   (set_cdev_map (pr :: cdev_map k) (set_chrdevs tbl k1)))
      end.
Proof.
  intros Hd Hf Hdyn.
  destruct (alloc_chrdev_region_ok k Hf Hdyn)
    as (tbl & Halloc & Hins & Hin & Hnin & Hback & Hr).
  exists tbl. cbv zeta. split; [done|].
  unfold plmem_create_cdev, bind at 1 2. rewrite (load_at _ _ _ Hd), Halloc.
  change (0 <? 0) with false. cbv iota beta.
  unfold cdev_init, cdev_add, device_create, unregister_chrdev_region, dev_err.
  unfold bind, store, get, modify, ret. proj. rewrite Hd.
  repeat (proj; rewrite ?list_insert_insert_eq, ?(lookup_stored _ _ _ Hd);
          cbv iota beta).
  assert (0 <= find_dynamic_major (chrdevs k) < 4095) as Hm
    by (unfold CHRDEV_MAJOR_DYN_END, CHRDEV_MAJOR_DYN_EXT_START in Hr; lia).
  destruct (kobj_map_error (faults k)) as [e|].
  - rewrite neg_nonzero. proj.
    rewrite MAJOR_STEPS_pos, unregister_chrdev_loop_one, Hback by done.
    destruct k; reflexivity.
  - change (negb (0 =? 0)) with false. cbv iota. proj.
    destruct (device_create_error (faults k)) as [e|]; proj.
    + rewrite MAJOR_STEPS_pos, unregister_chrdev_loop_one, Hback by done.
      destruct k; reflexivity.
    + destruct k; reflexivity.
Qed.

(** [plmem_create_cdev] always returns when handed a valid object; it leaves
    the driver data table alone, and of the object it changes only the device
    number and the embedded cdev. *)
Lemma plmem_create_cdev_returns (k : kernel) (data : ptr) (label : string)
    (d : plmem_data) :
  heap k !! data = Some d ->
  exists rc k' d',
    plmem_create_cdev data label k = Ret rc k' /\
    drvdata k' = drvdata k /\
    heap k' !! data = Some d' /\
    length (heap k') = length (heap k) /\
    dev d' = dev d /\ mem_start d' = mem_start d /\
    mem_size d' = mem_size d /\ mmap_mode d' = mmap_mode d.
Proof.
  intros Hd.
  destruct (chrdev_kzalloc_fails (faults k)) eqn:Hf;
    [|destruct (Z.lt_ge_cases (find_dynamic_major (chrdevs k)) 0) as [Hneg|Hdyn]].
  1,2: destruct (alloc_chrdev_region_fails k) as [e He]; [by auto|];
       exists (neg e), k, d;
       unfold plmem_create_cdev, bind at 1 2;
       rewrite (load_at _ _ _ Hd), He;
       destruct (Z.ltb_spec (neg e) 0) as [_|Hge];
         [done | pose proof (neg_negative e); lia].
  destruct (plmem_create_cdev_run k data label d Hd Hf Hdyn) as (tbl & _ & ->).
  destruct (kobj_map_error (faults k)), (device_create_error (faults k));
    do 2 eexists; eexists (set_cdev_command _ (set_devt _ d));
    (split; [reflexivity|]); proj;
    rewrite (lookup_stored _ _ _ Hd), length_insert; done.
Qed.

(** ** Probing: [plmem_probe] *)

(** The mode [plmem_probe] settles on before it looks at [topic,mem-type]. *)
Lemma plmem_probe_run (pdev : platform_device) (k : kernel) (res : resource) :
  devm_kzalloc_fails (faults k) = false ->
  platform_get_resource pdev IORESOURCE_MEM 0 = Some res ->
  let data := length (heap k) in
  let me := Some (pdev_dev pdev) in
  let default :=
    if device_is_compatible pdev "topic,iotester" then noncached else writecombine in
  let publish (mode : plmem_mode) : outcome Z :=
    let k0 := resolved_state pdev res mode k in
    match find_property "label" (pdev_properties pdev) with
    | Some l => plmem_create_cdev data l k0
    | None =>
        plmem_create_cdev data "plmem"
          (set_klog (klog k ++ [(me, "No label, using default: plmem" +:+ nl)]) k0)
    end in
  plmem_probe pdev k =
    match find_property "topic,mem-type" (pdev_properties pdev) with
    | None => publish default
    | Some s =>
        if String.eqb s "writecombine" then publish writecombine
        else if String.eqb s "cached" then publish cached
        else if String.eqb s "noncached" then publish noncached
        else Ret (neg EINVAL)
               (set_klog (klog k ++ [(me, "Invalid mem-type: " +:+ s +:+ nl)])
                  (resolved_state pdev res default k))
    end.
Proof.
  intros Hf Hres. cbv zeta. unfold plmem_probe.
  unfold bind at 1, devm_kzalloc. rewrite Hf, Hres.
  unfold device_property_read_string, dev_err_probe, dev_err, platform_set_drvdata.
  destruct (device_is_compatible pdev "topic,iotester");
  destruct (find_property "topic,mem-type" (pdev_properties pdev)) as [s|];
  destruct (find_property "label" (pdev_properties pdev)) as [l|];
  cbv iota beta; change (0 =? 0) with true; change (neg EINVAL =? 0) with false;
  cbv iota beta; cbn [negb];
  repeat match goal with
         | |- context [String.eqb s ?x] => destruct (String.eqb s x)
         end;
  rewrite ?bind_ret_r;
  unfold bind, store, modify, ret;
  repeat (proj; rewrite ?snoc_lookup, ?snoc_insert; cbv iota beta);
  rewrite ?outcome_eta; reflexivity.
Qed.

(** Publishing from a resolved state returns, and the object that ends up as
    the driver data of [pdev] still carries the resolved region and mode. *)
Lemma publish_keeps_region (pdev : platform_device) (k k0 : kernel)
    (res : resource) (mode : plmem_mode) (label : string) :
  heap k0 = heap k ++ [resolved_data pdev res mode] ->
  drvdata k0 = <[pdev_dev pdev := length (heap k)]> (drvdata k) ->
  exists rc k' d,
    plmem_create_cdev (length (heap k)) label k0 = Ret rc k' /\
    drvdata k' !! pdev_dev pdev = Some (length (heap k)) /\
    heap k' !! length (heap k) = Some d /\
    mem_start d = res_start res /\
    mem_size d = ulong (res_end res - res_start res + 1) /\
    mmap_mode d = mode.
Proof.
  intros Hh Hd.
  assert (heap k0 !! length (heap k) = Some (resolved_data pdev res mode)) as Hl
    by (rewrite Hh; apply snoc_lookup).
  destruct (plmem_create_cdev_returns k0 _ label _ Hl)
    as (rc & k' & d & Hrun & Hdrv & Hd' & _ & _ & Hs & Hsz & Hm).
  exists rc, k', d. split; [done|].
  rewrite Hdrv, Hd, lookup_insert_eq. done.
Qed.

Lemma plmem_probe_mode (pdev : platform_device) (k : kernel) (res : resource) :
  devm_kzalloc_fails (faults k) = false ->
  platform_get_resource pdev IORESOURCE_MEM 0 = Some res ->
  forall mode,
    match find_property "topic,mem-type" (pdev_properties pdev) with
    | None =>
        mode = if device_is_compatible pdev "topic,iotester"
               then noncached else writecombine
    | Some s =>
        (s = "writecombine" /\ mode = writecombine) \/
        (s = "cached" /\ mode = cached) \/
        (s = "noncached" /\ mode = noncached)
    end ->
    exists rc k' data d,
      plmem_probe pdev k = Ret rc k' /\
      drvdata k' !! pdev_dev pdev = Some data /\
      heap k' !! data = Some d /\
      mem_start d = res_start res /\
      mem_size d = ulong (res_end res - res_start res + 1) /\
      mmap_mode d = mode.
Proof.
  intros Hf Hres mode Hmode.
  rewrite (plmem_probe_run pdev k res Hf Hres). cbv zeta.
  assert (forall label k0,
    heap k0 = heap k ++ [resolved_data pdev res mode] ->
    drvdata k0 = <[pdev_dev pdev := length (heap k)]> (drvdata k) ->
    exists rc k' data d,
      plmem_create_cdev (length (heap k)) label k0 = Ret rc k' /\
      drvdata k' !! pdev_dev pdev = Some data /\
      heap k' !! data = Some d /\
      mem_start d = res_start res /\
      mem_size d = ulong (res_end res - res_start res + 1) /\
      mmap_mode d = mode) as Hpub.
  { intros label k0 Hh Hd.
    destruct (publish_keeps_region pdev k k0 res mode label Hh Hd)
      as (rc & k' & d & H). exists rc, k', (length (heap k)), d. exact H. }
  destruct (find_property "topic,mem-type" (pdev_properties pdev)) as [s|].
  - destruct Hmode as [[-> ->]|[[-> ->]|[-> ->]]]; cbn [String.eqb Ascii.eqb Bool.eqb];
      cbv iota;
      destruct (find_property "label" (pdev_properties pdev));
      by apply Hpub.
  - subst mode.
    destruct (find_property "label" (pdev_properties pdev)); by apply Hpub.
Qed.

(** C4: a [topic,mem-type] of "writecombine", "cached" or "noncached" makes
    [plmem_probe] leave the device with the mode of that name, whatever the
    compatible strings of the node are (the tester tag included). *)
Theorem mem_type_selects_mode (pdev : platform_device) (k : kernel)
    (res : resource) (s : string) (mode : plmem_mode) :
  devm_kzalloc_fails (faults k) = false ->
  platform_get_resource pdev IORESOURCE_MEM 0 = Some res ->
  find_property "topic,mem-type" (pdev_properties pdev) = Some s ->
  (s = "writecombine" /\ mode = writecombine) \/
  (s = "cached" /\ mode = cached) \/
  (s = "noncached" /\ mode = noncached) ->
  exists rc k' data d,
    plmem_probe pdev k = Ret rc k' /\
    drvdata k' !! pdev_dev pdev = Some data /\
    heap k' !! data = Some d /\
    mmap_mode d = mode.
Proof.
  intros Hf Hres Hs Hmode.
  destruct (plmem_probe_mode pdev k res Hf Hres mode)
    as (rc & k' & data & d & Hrun & Hdrv & Hd & _ & _ & Hm).
  { by rewrite Hs. }
  by exists rc, k', data, d.
Qed.

(** C6: without a [topic,mem-type] property the mode is [noncached] for a node
    whose compatible strings include "topic,iotester" and [writecombine] for
    any other. *)
Theorem default_mode_from_compatible (pdev : platform_device) (k : kernel)
    (res : resource) :
  devm_kzalloc_fails (faults k) = false ->
  platform_get_resource pdev IORESOURCE_MEM 0 = Some res ->
  find_property "topic,mem-type" (pdev_properties pdev) = None ->
  exists rc k' data d,
    plmem_probe pdev k = Ret rc k' /\
    drvdata k' !! pdev_dev pdev = Some data /\
    heap k' !! data = Some d /\
    (In "topic,iotester" (pdev_compatible pdev) -> mmap_mode d = noncached) /\
    (~ In "topic,iotester" (pdev_compatible pdev) -> mmap_mode d = writecombine).
Proof.
  intros Hf Hres Hs.
  destruct (plmem_probe_mode pdev k res Hf Hres
              (if device_is_compatible pdev "topic,iotester"
               then noncached else writecombine))
    as (rc & k' & data & d & Hrun & Hdrv & Hd & _ & _ & Hm).
  { by rewrite Hs. }
  exists rc, k', data, d. do 3 (split; [done|]).
  rewrite Hm. unfold device_is_compatible.
  destruct (existsb _ _) eqn:Hex.
  - split; [done|]. intros Hnot. exfalso. apply Hnot.
    apply existsb_exists in Hex as (x & Hin & Heq).
    by apply String.eqb_eq in Heq as <-.
  - split; [|done]. intros Hin.
    assert (existsb (String.eqb "topic,iotester") (pdev_compatible pdev) = true)
      as Habs; [|congruence].
    apply existsb_exists. exists "topic,iotester". split; [done|].
    apply String.eqb_refl.
Qed.

(** C5: any other string in [topic,mem-type] makes [plmem_probe] return
    [-EINVAL] after logging the string; no device number is allocated, no
    handler is registered and no node is created. *)
Theorem invalid_mem_type_rejected (pdev : platform_device) (k : kernel)
    (res : resource) (s : string) :
  devm_kzalloc_fails (faults k) = false ->
  platform_get_resource pdev IORESOURCE_MEM 0 = Some res ->
  find_property "topic,mem-type" (pdev_properties pdev) = Some s ->
  s <> "writecombine" -> s <> "cached" -> s <> "noncached" ->
  exists k',
    plmem_probe pdev k = Ret (neg EINVAL) k' /\
    klog k' = klog k ++ [(Some (pdev_dev pdev), "Invalid mem-type: " +:+ s +:+ nl)] /\
    chrdevs k' = chrdevs k /\
    cdev_map k' = cdev_map k /\
    class_devs k' = class_devs k.
Proof.
  intros Hf Hres Hs H1 H2 H3.
  rewrite (plmem_probe_run pdev k res Hf Hres). cbv zeta. rewrite Hs.
  apply String.eqb_neq in H1, H2, H3. rewrite H1, H2, H3.
  eexists. split; [reflexivity|]. done.
Qed.

(** C2: on a platform device without a memory resource [plmem_probe] does not
    return: it reads [res->start] through the null pointer.  Nothing has been
    allocated, registered, published or logged by then. *)
Theorem missing_resource_faults (pdev : platform_device) (k : kernel) :
  devm_kzalloc_fails (faults k) = false ->
  platform_get_resource pdev IORESOURCE_MEM 0 = None ->
  exists k',
    plmem_probe pdev k = Crash NullDeref k' /\
    chrdevs k' = chrdevs k /\
    cdev_map k' = cdev_map k /\
    class_devs k' = class_devs k /\
    klog k' = klog k.
Proof.
  intros Hf Hres. unfold plmem_probe.
  unfold bind at 1, devm_kzalloc. rewrite Hf, Hres.
  unfold platform_set_drvdata, bind, store, modify, crash. proj.
  rewrite snoc_lookup. eexists. split; [reflexivity|]. done.
Qed.

(** C3: when [device_create] fails, [plmem_create_cdev] returns its error, the
    device-number table is as before the call and no node was added; the
    entry [cdev_add] made in the cdev map is still there, since the rollback
    has no [cdev_del]. *)
Theorem device_create_failure_keeps_cdev (k : kernel) (data : ptr)
    (label : string) (d : plmem_data) (e : errno) :
  heap k !! data = Some d ->
  chrdev_kzalloc_fails (faults k) = false ->
  0 <= find_dynamic_major (chrdevs k) ->
  kobj_map_error (faults k) = None ->
  device_create_error (faults k) = Some e ->
  exists k',
    plmem_create_cdev data label k = Ret (neg e) k' /\
    chrdevs k' = chrdevs k /\
    class_devs k' = class_devs k /\
    cdev_map k' =
      {| p_dev := MKDEV (find_dynamic_major (chrdevs k)) 0; p_range := 1;
         p_data := cdev_command_of data |} :: cdev_map k.
Proof.
  intros Hd Hf Hdyn Hmap Hcreate.
  destruct (plmem_create_cdev_run k data label d Hd Hf Hdyn) as (tbl & _ & Hrun).
  rewrite Hrun, Hmap, Hcreate. eexists. split; [reflexivity|]. done.
Qed.

(** ** Teardown: [plmem_remove] *)

(** For a device published at [MKDEV major 0], [plmem_remove] destroys the node
    and then asks to unregister [major * 2^20] minors; every table entry that
    is not a whole major survives that. *)
Lemma plmem_remove_run (pdev : platform_device) (k : kernel) (data : ptr)
    (d : plmem_data) (major : Z) :
  drvdata k !! pdev_dev pdev = Some data ->
  heap k !! data = Some d ->
  devt d = MKDEV major 0 ->
  0 <= major < 2048 ->
  exists tbl,
    plmem_remove pdev k =
      Ret tt (set_chrdevs tbl
                (set_class_devs (remove_node (devt d) (class_devs k)) k)) /\
    forall cd, cd_minorct cd <> 2 ^ 20 -> In cd (chrdevs k) -> In cd tbl.
Proof.
  intros Hdrv Hd Hdevt Hm.
  destruct (unregister_chrdev_loop_majors MAJOR_STEPS major (2 * major) (chrdevs k))
    as (tbl & Hloop & Hkeep); [lia|lia|unfold MAJOR_STEPS; lia|].
  exists tbl. split; [|done].
  unfold plmem_remove, dev_get_drvdata, bind at 1, get. rewrite Hdrv.
  change (seqZ 0 NUMBER_OF_CDEV) with [0]. cbn [destroy_nodes].
  unfold bind, device_destroy, modify, ret, unregister_chrdev_region.
  rewrite (load_at _ _ _ Hd). proj.
  unfold load. proj. rewrite Hd. proj.
  rewrite Hdevt, MKDEV_major_0 by lia. unfold NUMBER_OF_CDEV, u32.
  rewrite (Z.mod_small (major * 2 ^ 20 + 1 - 1)) by lia.
  rewrite !Z.mod_small by lia.
  replace (major * 2 ^ 20 + (major * 2 ^ 20 + 1 - 1)) with (2 * major * 2 ^ 20)
    by lia.
  rewrite Z.add_0_r, Hloop. done.
Qed.

(** C1: after a successful [plmem_create_cdev], [plmem_remove] returns with the
    range that the publication allocated still registered: the table is not
    back in the state it had before. *)
Theorem remove_leaves_range_registered (k k1 : kernel) (data : ptr)
    (label : string) (pdev : platform_device) :
  plmem_create_cdev data label k = Ret 0 k1 ->
  drvdata k1 !! pdev_dev pdev = Some data ->
  exists k2 major,
    plmem_remove pdev k1 = Ret tt k2 /\
    ~ In (region major 0 NUMBER_OF_CDEV DRIVER_CLASS_NAME) (chrdevs k) /\
    In (region major 0 NUMBER_OF_CDEV DRIVER_CLASS_NAME) (chrdevs k1) /\
    In (region major 0 NUMBER_OF_CDEV DRIVER_CLASS_NAME) (chrdevs k2) /\
    chrdevs k2 <> chrdevs k.
Proof.
  intros Hpub Hdrv.
  destruct (heap k !! data) as [d|] eqn:Hd.
  2: { unfold plmem_create_cdev, bind at 1, load in Hpub.
       by rewrite Hd in Hpub. }
  assert (forall e k', Ret (neg e) k' = Ret 0 k1 -> False) as Hneg.
  { intros e k' [= He _]. pose proof (neg_negative e). lia. }
  destruct (chrdev_kzalloc_fails (faults k)) eqn:Hf;
    [|destruct (Z.lt_ge_cases (find_dynamic_major (chrdevs k)) 0) as [Hlt|Hdyn]].
  1,2: exfalso; destruct (alloc_chrdev_region_fails k) as [e He]; [by auto|];
       unfold plmem_create_cdev, bind at 1 2 in Hpub;
       rewrite (load_at _ _ _ Hd), He in Hpub;
       destruct (Z.ltb_spec (neg e) 0) as [_|Hge];
         [by eapply Hneg | pose proof (neg_negative e); lia].
  destruct (plmem_create_cdev_run k data label d Hd Hf Hdyn)
    as (tbl & (Hins & Hin & Hnin & Hr) & Hrun).
  rewrite Hrun in Hpub.
  destruct (kobj_map_error (faults k)); [exfalso; by eapply Hneg|].
  destruct (device_create_error (faults k)); [exfalso; by eapply Hneg|].
  injection Hpub as <-.
  unfold CHRDEV_MAJOR_DYN_END, CHRDEV_MAJOR_DYN_EXT_START in Hr.
  set (major := find_dynamic_major (chrdevs k)) in *.
  destruct (plmem_remove_run pdev _ data
              (set_cdev_command (published_cdev (MKDEV major 0))
                 (set_devt (MKDEV major 0) d)) major Hdrv)
    as (tbl' & Hrem & Hkeep).
  { proj. apply (lookup_stored _ _ _ Hd). }
  { reflexivity. }
  { lia. }
  assert (In (region major 0 NUMBER_OF_CDEV DRIVER_CLASS_NAME) tbl') as Hin'.
  { apply Hkeep; [|done]. unfold region, NUMBER_OF_CDEV. simpl. lia. }
  eexists _, major.
  split; [exact Hrem|]. split; [done|]. split; [done|]. proj.
  split; [done|]. intros Heq. by rewrite Heq in Hin'.
Qed.

(** ** File operations *)

Section FileOperations.
Context `{mm : mm_ops}.

Lemma plmem_fops_frame (c : file_call) (filp : file) (k : kernel) :
  final_state (plmem_fops c filp k) = k.
Proof.
  destruct c; unfold plmem_fops, bind; cbn; [|done..].
  unfold plmem_mmap, bind, load.
  destruct (private_data filp) as [p|]; [|done].
  by destruct (heap k !! p).
Qed.

Lemma session_frame (calls : list file_call) (filp : file) (k : kernel) :
  final_state (session calls filp k) = k.
Proof.
  revert filp. induction calls as [|c calls IH]; intros filp; [done|].
  cbn [session]. unfold bind at 1.
  pose proof (plmem_fops_frame c filp k) as Hc.
  destruct (plmem_fops c filp k) as [r k'|w k']; simpl in Hc; subst k'; [|done].
  unfold bind. specialize (IH (snd (fst r))).
  by destruct (session calls (snd (fst r)) k).
Qed.

(** C7: [plmem_mmap] on a file attached to the object [d] hands the helper a
    mapping whose page attribute is that of the caller's made non-cached for
    the non-cached mode, made write-combined for the write-combine mode, and
    left as it came for the cached mode, where the mapping is the caller's
    own; bounds, offset and flags are the caller's in every mode.  The helper
    gets the base and the length of [d], and what it returns is returned. *)
Theorem plmem_mmap_applies_mode (filp : file) (vma : vm_area_struct)
    (k : kernel) (data : ptr) (d : plmem_data) :
  private_data filp = Some data ->
  heap k !! data = Some d ->
  exists vma',
    plmem_mmap filp vma k =
      Ret (vm_iomap_memory vma' (mem_start d) (mem_size d)) k /\
    vm_page_prot vma' =
      match mmap_mode d with
      | noncached => pgprot_noncached (vm_page_prot vma)
      | writecombine => pgprot_writecombine (vm_page_prot vma)
      | cached => vm_page_prot vma
      end /\
    vm_start vma' = vm_start vma /\ vm_end vma' = vm_end vma /\
    vm_pgoff vma' = vm_pgoff vma /\ vm_flags vma' = vm_flags vma /\
    (mmap_mode d = cached -> vma' = vma).
Proof.
  intros Hp Hd. unfold plmem_mmap, bind. rewrite Hp, (load_at _ _ _ Hd).
  eexists. split; [reflexivity|]. by destruct (mmap_mode d).
Qed.

(** C9: whatever calls are made on an open file, and in whatever order, the
    kernel state at the end is the state at the start; so every driver
    object has the base, length, mode and device number it had. *)
Theorem file_calls_change_nothing (calls : list file_call) (filp : file)
    (k : kernel) :
  final_state (session calls filp k) = k /\
  forall (p : ptr) (d : plmem_data),
    heap k !! p = Some d ->
    exists d', heap (final_state (session calls filp k)) !! p = Some d' /\
               mem_start d' = mem_start d /\ mem_size d' = mem_size d /\
               mmap_mode d' = mmap_mode d /\ devt d' = devt d.
Proof.
  split; [apply session_frame|].
  intros p d Hd. exists d. by rewrite session_frame.
Qed.

End FileOperations.

(** C10: [plmem_open] returns 0 with the object that embeds the inode's cdev
    attached to the file, and [plmem_release] returns 0; both for every file
    and every kernel state, which they leave as it is. *)
Theorem open_and_release_succeed (data : ptr) (ino : inode) (filp : file)
    (k : kernel) :
  i_cdev ino = cdev_command_of data ->
  plmem_open ino filp k = Ret (0, {| private_data := Some data |}) k /\
  plmem_release ino filp k = Ret 0 k.
Proof. intros Hi. unfold plmem_open, plmem_release. by rewrite Hi. Qed.

(* ===================================================================== *)
(** * Part 4: the statements on the sample inputs                         *)
(* ===================================================================== *)

Lemma mem_type_selects_mode_witness :
  exists rc k' data d,
    plmem_probe iotester_cached boot = Ret rc k' /\
    drvdata k' !! pdev_dev iotester_cached = Some data /\
    heap k' !! data = Some d /\
    mmap_mode d = cached.
Proof.
  apply (mem_type_selects_mode iotester_cached boot ram_64k "cached" cached);
    [reflexivity | reflexivity | reflexivity | right; left; split; reflexivity].
Defined.

Lemma default_mode_from_compatible_witness :
  exists rc k' data d,
    plmem_probe iotester boot = Ret rc k' /\
    drvdata k' !! pdev_dev iotester = Some data /\
    heap k' !! data = Some d /\
    (In "topic,iotester" (pdev_compatible iotester) -> mmap_mode d = noncached) /\
    (~ In "topic,iotester" (pdev_compatible iotester) -> mmap_mode d = writecombine).
Proof.
  apply (default_mode_from_compatible iotester boot ram_64k);
    reflexivity.
Defined.

Lemma invalid_mem_type_rejected_witness :
  exists k',
    plmem_probe bogus_mem_type boot = Ret (neg EINVAL) k' /\
    klog k' = klog boot ++ [(Some (pdev_dev bogus_mem_type),
                             "Invalid mem-type: " +:+ "bogus" +:+ nl)] /\
    chrdevs k' = chrdevs boot /\
    cdev_map k' = cdev_map boot /\
    class_devs k' = class_devs boot.
Proof.
  apply (invalid_mem_type_rejected bogus_mem_type boot ram_64k "bogus");
    [reflexivity | reflexivity | reflexivity
    | discriminate | discriminate | discriminate].
Defined.

Lemma missing_resource_faults_witness :
  exists k',
    plmem_probe no_memory boot = Crash NullDeref k' /\
    chrdevs k' = chrdevs boot /\
    cdev_map k' = cdev_map boot /\
    class_devs k' = class_devs boot /\
    klog k' = klog boot.
Proof.
  apply (missing_resource_faults no_memory boot); reflexivity.
Defined.

Lemma device_create_failure_keeps_cdev_witness :
  let k := resolved_state fpga_ram ram_64k writecombine boot_name_taken in
  exists k',
    plmem_create_cdev 0%nat "fpga0" k = Ret (neg EEXIST) k' /\
    chrdevs k' = chrdevs k /\
    class_devs k' = class_devs k /\
    cdev_map k' =
      {| p_dev := MKDEV (find_dynamic_major (chrdevs k)) 0; p_range := 1;
         p_data := cdev_command_of 0%nat |} :: cdev_map k.
Proof.
  apply (device_create_failure_keeps_cdev
           (resolved_state fpga_ram ram_64k writecombine boot_name_taken)
           0%nat "fpga0" (resolved_data fpga_ram ram_64k writecombine) EEXIST);
    [reflexivity | reflexivity | vm_compute; discriminate
    | reflexivity | reflexivity].
Defined.

Lemma remove_leaves_range_registered_witness :
  let k := resolved_state fpga_ram ram_64k writecombine boot in
  exists k2 major,
    plmem_remove fpga_ram fpga_ram_probed = Ret tt k2 /\
    ~ In (region major 0 NUMBER_OF_CDEV DRIVER_CLASS_NAME) (chrdevs k) /\
    In (region major 0 NUMBER_OF_CDEV DRIVER_CLASS_NAME) (chrdevs fpga_ram_probed) /\
    In (region major 0 NUMBER_OF_CDEV DRIVER_CLASS_NAME) (chrdevs k2) /\
    chrdevs k2 <> chrdevs k.
Proof.
  apply (remove_leaves_range_registered
           (resolved_state fpga_ram ram_64k writecombine boot)
           fpga_ram_probed 0%nat "fpga0" fpga_ram);
    vm_compute; reflexivity.
Defined.

Lemma plmem_mmap_applies_mode_witness :
  let d := set_cdev_command (published_cdev fpga_ram_devt)
             (set_devt fpga_ram_devt (resolved_data fpga_ram ram_64k writecombine)) in
  exists vma',
    @plmem_mmap sample_mm_ops fpga_ram_file sample_vma fpga_ram_probed =
      Ret (@vm_iomap_memory sample_mm_ops vma' 0x40000000 0x10000)
        fpga_ram_probed /\
    vm_page_prot vma' = 0x42 /\
    vm_start vma' = vm_start sample_vma /\ vm_end vma' = vm_end sample_vma /\
    vm_pgoff vma' = vm_pgoff sample_vma /\ vm_flags vma' = vm_flags sample_vma /\
    (mmap_mode d = cached -> vma' = sample_vma).
Proof.
  apply (@plmem_mmap_applies_mode sample_mm_ops fpga_ram_file sample_vma
           fpga_ram_probed 0%nat
           (set_cdev_command (published_cdev fpga_ram_devt)
              (set_devt fpga_ram_devt (resolved_data fpga_ram ram_64k writecombine))));
    [reflexivity | vm_compute; reflexivity].
Defined.

Lemma open_and_release_succeed_witness :
  plmem_open fpga_ram_inode {| private_data := None |} fpga_ram_probed
    = Ret (0, {| private_data := Some 0%nat |}) fpga_ram_probed /\
  plmem_release fpga_ram_inode fpga_ram_file fpga_ram_probed
    = Ret 0 fpga_ram_probed.
Proof.
  split.
  - apply (open_and_release_succeed 0%nat fpga_ram_inode
             {| private_data := None |} fpga_ram_probed eq_refl).
  - apply (open_and_release_succeed 0%nat fpga_ram_inode
             fpga_ram_file fpga_ram_probed eq_refl).
Defined.

(** The teardown on the sample device, evaluated: the node is gone, the range
    [254:0..0] is still in the table, and so is the cdev map entry. *)
Example probe_then_remove_at_boot :
  exists k2,
    plmem_remove fpga_ram fpga_ram_probed = Ret tt k2 /\
    class_devs k2 = [] /\
    chrdevs k2 = [region 254 0 1 "plmem"] /\
    cdev_map k2 = [{| p_dev := fpga_ram_devt; p_range := 1;
                      p_data := cdev_command_of 0%nat |}].
Proof. eexists. split; [vm_compute; reflexivity|]. by vm_compute. Qed.

(** The rollback path of [plmem_create_cdev] on the same device, evaluated:
    it asks for [NUMBER_OF_CDEV] minors and the table is empty again. *)
Example rollback_at_boot :
  chrdevs (final_state (plmem_probe fpga_ram boot_name_taken)) = [] /\
  cdev_map (final_state (plmem_probe fpga_ram boot_name_taken))
    = [{| p_dev := fpga_ram_devt; p_range := 1; p_data := cdev_command_of 0%nat |}].
Proof. by vm_compute. Qed.

(** The same teardown when another driver holds a whole major above ours: its
    range is dropped from the table, ours stays. *)
Example remove_drops_foreign_range :
  chrdevs (final_state (plmem_probe fpga_ram boot_with_major_300))
    = [region 254 0 1 "plmem"; region 300 0 (2 ^ 20) "other"] /\
  chrdevs (final_state
             (bind (plmem_probe fpga_ram) (fun _ => plmem_remove fpga_ram)
                boot_with_major_300))
    = [region 254 0 1 "plmem"].
Proof. by vm_compute. Qed.

(* ===================================================================== *)
(** * Part 5: further properties of the driver                            *)
(* ===================================================================== *)

(** ** More on the device-number table *)

Lemma chain_insert_In (cd : char_device_struct) (tbl tbl' : list char_device_struct) :
  chain_insert cd tbl = Some tbl' ->
  forall x, In x tbl' <-> x = cd \/ In x tbl.
Proof.
  revert tbl'. induction tbl as [|curr rest IH]; simpl; intros tbl' H x.
  - injection H as <-. simpl. intuition (subst; auto).
  - destruct (cd_major curr <? cd_major cd).
    { destruct (chain_insert cd rest) as [r|]; [|done]. injection H as <-.
      simpl. rewrite (IH r eq_refl). intuition (subst; auto). }
    destruct (cd_major cd <? cd_major curr).
    { injection H as <-. simpl. intuition (subst; auto). }
    destruct (cd_baseminor curr + cd_minorct curr <=? cd_baseminor cd).
    { destruct (chain_insert cd rest) as [r|]; [|done]. injection H as <-.
      simpl. rewrite (IH r eq_refl). intuition (subst; auto). }
    destruct (cd_baseminor cd + cd_minorct cd <=? cd_baseminor curr); [|done].
    injection H as <-. simpl. intuition (subst; auto).
Qed.

Lemma unregister_incl (major baseminor minorct : Z) (tbl : list char_device_struct) :
  forall cd, In cd (__unregister_chrdev_region major baseminor minorct tbl) ->
             In cd tbl.
Proof.
  induction tbl as [|c rest IH]; simpl; [done|]. intros cd.
  destruct (_ && _); simpl; intuition (subst; auto).
Qed.

Lemma unregister_chrdev_loop_incl (fuel : nat) (n to : Z)
    (tbl tbl' : list char_device_struct) :
  unregister_chrdev_loop fuel n to tbl = Some tbl' ->
  forall cd, In cd tbl' -> In cd tbl.
Proof.
  revert n tbl. induction fuel as [|fuel IH]; intros n tbl; cbn [unregister_chrdev_loop];
    destruct (n <? to); try done.
  - by intros [= <-].
  - intros H cd Hin. eapply unregister_incl, IH; done.
  - by intros [= <-].
Qed.

(** ** More on the class devices *)

Lemma remove_node_incl (dv : Z) (l : list class_device) :
  forall nd, In nd (remove_node dv l) -> In nd l.
Proof.
  induction l as [|c rest IH]; simpl; [done|]. intros nd.
  destruct (node_devt c =? dv); simpl; intuition (subst; auto).
Qed.

Lemma remove_node_keeps (dv : Z) (l : list class_device) (nd : class_device) :
  node_devt nd <> dv -> In nd l -> In nd (remove_node dv l).
Proof.
  intros Hne. induction l as [|c rest IH]; simpl; [done|].
  intros [->|Hin].
  - destruct (Z.eqb_spec (node_devt nd) dv); [done|]. by left.
  - destruct (node_devt c =? dv); [done|]. right. by apply IH.
Qed.

Lemma remove_node_last (dv : Z) (l : list class_device) (nd : class_device) :
  node_devt nd = dv ->
  (forall x, In x l -> node_devt x <> dv) ->
  remove_node dv (l ++ [nd]) = l.
Proof.
  intros Hnd. induction l as [|c rest IH]; simpl; intros Hl.
  - by rewrite Hnd, Z.eqb_refl.
  - destruct (Z.eqb_spec (node_devt c) dv) as [Heq|_].
    + exfalso. eapply Hl; [by left|done].
    + rewrite IH; [done|]. intros x Hx. apply Hl. by right.
Qed.

(** ** More on publishing *)

Lemma plmem_create_cdev_alloc_fails (k : kernel) (data : ptr) (label : string)
    (d : plmem_data) :
  heap k !! data = Some d ->
  (chrdev_kzalloc_fails (faults k) = true ->
   plmem_create_cdev data label k = Ret (neg ENOMEM) k) /\
  (chrdev_kzalloc_fails (faults k) = false ->
   find_dynamic_major (chrdevs k) < 0 ->
   plmem_create_cdev data label k = Ret (neg EBUSY) k).
Proof.
  intros Hd.
  split; [intros Hf | intros Hf Hneg];
    unfold plmem_create_cdev, bind at 1 2; rewrite (load_at _ _ _ Hd);
    unfold alloc_chrdev_region, bind, __register_chrdev_region; simpl;
    rewrite Hf; [done|].
  by destruct (Z.ltb_spec (find_dynamic_major (chrdevs k)) 0); [|lia].
Qed.

Lemma plmem_create_cdev_success (k k1 : kernel) (data : ptr) (label : string) :
  plmem_create_cdev data label k = Ret 0 k1 ->
  exists d tbl,
    heap k !! data = Some d /\
    k1 = published_state k data label d tbl /\
    chain_insert (region (find_dynamic_major (chrdevs k)) 0 1 "plmem") (chrdevs k)
      = Some tbl /\
    ~ In (region (find_dynamic_major (chrdevs k)) 0 1 "plmem") (chrdevs k) /\
    CHRDEV_MAJOR_DYN_END <= find_dynamic_major (chrdevs k)
      <= CHRDEV_MAJOR_DYN_EXT_START.
Proof.
  intros Hpub.
  destruct (heap k !! data) as [d|] eqn:Hd.
  2: { unfold plmem_create_cdev, bind at 1, load in Hpub. by rewrite Hd in Hpub. }
  assert (forall e k', Ret (neg e) k' = Ret 0 k1 -> False) as Hneg.
  { intros e k' [= He _]. pose proof (neg_negative e). lia. }
  destruct (plmem_create_cdev_alloc_fails k data label d Hd) as [Hm Hb].
  destruct (chrdev_kzalloc_fails (faults k)) eqn:Hf.
  { exfalso. rewrite Hm in Hpub by done. by eapply Hneg. }
  destruct (Z.lt_ge_cases (find_dynamic_major (chrdevs k)) 0) as [Hlt|Hdyn].
  { exfalso. rewrite Hb in Hpub by done. by eapply Hneg. }
  destruct (plmem_create_cdev_run k data label d Hd Hf Hdyn)
    as (tbl & (Hins & Hin & Hnin & Hr) & Hrun).
  rewrite Hrun in Hpub.
  destruct (kobj_map_error (faults k)); [exfalso; by eapply Hneg|].
  destruct (device_create_error (faults k)); [exfalso; by eapply Hneg|].
  injection Hpub as <-. by exists d, tbl.
Qed.

(** Every way [plmem_create_cdev] can go on a valid object. *)
Lemma plmem_create_cdev_cases (k : kernel) (data : ptr) (label : string)
    (d : plmem_data) :
  heap k !! data = Some d ->
  exists rc k' d',
    plmem_create_cdev data label k = Ret rc k' /\
    heap k' = <[data := d']> (heap k) /\
    drvdata k' = drvdata k /\
    (dev d' = dev d /\ mem_start d' = mem_start d /\
     mem_size d' = mem_size d /\ mmap_mode d' = mmap_mode d) /\
    ((rc < 0 /\ chrdevs k' = chrdevs k /\ class_devs k' = class_devs k /\
      (cdev_map k' = cdev_map k \/ exists pr, cdev_map k' = pr :: cdev_map k))
     \/
     (rc = 0 /\ exists tbl, k' = published_state k data label d tbl /\
        0 <= find_dynamic_major (chrdevs k) /\
        chain_insert (region (find_dynamic_major (chrdevs k)) 0 1 "plmem")
          (chrdevs k) = Some tbl)).
Proof.
  intros Hd.
  destruct (plmem_create_cdev_alloc_fails k data label d Hd) as [Hm Hb].
  destruct (chrdev_kzalloc_fails (faults k)) eqn:Hf;
    [|destruct (Z.lt_ge_cases (find_dynamic_major (chrdevs k)) 0) as [Hneg|Hdyn]].
  - exists (neg ENOMEM), k, d. rewrite Hm by done.
    rewrite list_insert_id by done. split_and!; try done. left.
    pose proof (neg_negative ENOMEM). split_and!; auto.
  - exists (neg EBUSY), k, d. rewrite Hb by done.
    rewrite list_insert_id by done. split_and!; try done. left.
    pose proof (neg_negative EBUSY). split_and!; auto.
  - destruct (plmem_create_cdev_run k data label d Hd Hf Hdyn)
      as (tbl & (Hins & _) & ->).
    destruct (kobj_map_error (faults k)) as [e|];
      [|destruct (device_create_error (faults k)) as [e|]];
      do 2 eexists; eexists (set_cdev_command _ (set_devt _ d));
      (split; [reflexivity|]); proj; split_and!; try done.
    + left. pose proof (neg_negative e). split_and!; auto.
    + left. pose proof (neg_negative e). split_and!; eauto.
    + right. split; [done|]. by exists tbl.
Qed.

(** ** More on probing *)

Lemma publish_cases (pdev : platform_device) (k k0 : kernel) (res : resource)
    (mode : plmem_mode) (label : string) :
  heap k0 = heap k ++ [resolved_data pdev res mode] ->
  drvdata k0 = <[pdev_dev pdev := length (heap k)]> (drvdata k) ->
  chrdevs k0 = chrdevs k -> class_devs k0 = class_devs k ->
  cdev_map k0 = cdev_map k ->
  exists rc k' d',
    plmem_create_cdev (length (heap k)) label k0 = Ret rc k' /\
    mmap_mode d' = mode /\
    probe_result pdev res k rc k' d'.
Proof.
  intros Hh Hdrv Hc Hn Hm.
  assert (heap k0 !! length (heap k) = Some (resolved_data pdev res mode)) as Hl
    by (rewrite Hh; apply snoc_lookup).
  destruct (plmem_create_cdev_cases k0 _ label _ Hl)
    as (rc & k' & d' & Hrun & Hheap & Hd' & (Hdev & Hs & Hsz & Hmode) & Hcase).
  exists rc, k', d'. split; [done|]. split; [done|].
  unfold probe_result. rewrite Hheap, Hh, snoc_insert, Hd', Hdrv.
  do 5 (split; [done|]).
  destruct Hcase as [(Hrc & Hc' & Hn' & Hm')|(Hrc & tbl & -> & Hdyn & Hins)].
  - left. rewrite Hc', Hn', <- Hc, <- Hn, <- Hm. done.
  - right. split; [done|]. exists label. cbv zeta.
    unfold published_state in Hheap.
    cbn [heap set_class_devs set_cdev_map set_chrdevs set_heap] in Hheap.
    rewrite Hh, !snoc_insert, Hc in Hheap. apply app_inj_tail in Hheap as [_ <-].
    unfold published_state. proj. rewrite Hc in *. by rewrite Hn, Hm, Hins.
Qed.

Lemma plmem_probe_cases (pdev : platform_device) (k : kernel) (res : resource) :
  devm_kzalloc_fails (faults k) = false ->
  platform_get_resource pdev IORESOURCE_MEM 0 = Some res ->
  exists rc k' d',
    plmem_probe pdev k = Ret rc k' /\ probe_result pdev res k rc k' d'.
Proof.
  intros Hf Hres.
  rewrite (plmem_probe_run pdev k res Hf Hres). cbv zeta.
  assert (forall mode,
    exists rc k' d',
      match find_property "label" (pdev_properties pdev) with
      | Some l =>
          plmem_create_cdev (length (heap k)) l (resolved_state pdev res mode k)
      | None =>
          plmem_create_cdev (length (heap k)) "plmem"
            (set_klog (klog k ++ [(Some (pdev_dev pdev),
                                   "No label, using default: plmem" +:+ nl)])
               (resolved_state pdev res mode k))
      end = Ret rc k' /\ probe_result pdev res k rc k' d') as Hpub.
  { intros mode.
    destruct (find_property "label" (pdev_properties pdev)) as [l|].
    - destruct (publish_cases pdev k (resolved_state pdev res mode k) res mode l)
        as (rc & k' & d' & Hrun & _ & Hres'); try done.
      by exists rc, k', d'.
    - destruct (publish_cases pdev k
                  (set_klog (klog k ++ [(Some (pdev_dev pdev),
                                         "No label, using default: plmem" +:+ nl)])
                     (resolved_state pdev res mode k)) res mode "plmem")
        as (rc & k' & d' & Hrun & _ & Hres'); try done.
      by exists rc, k', d'. }
  destruct (find_property "topic,mem-type" (pdev_properties pdev)) as [s|];
    [|apply Hpub].
  repeat match goal with
         | |- context [String.eqb s ?x] => destruct (String.eqb s x)
         end; try apply Hpub.
  do 2 eexists. eexists (resolved_data pdev res _). split; [reflexivity|].
  unfold probe_result, resolved_state. proj. do 5 (split; [done|]).
  left. pose proof (neg_negative EINVAL). split_and!; auto.
Qed.

(** Probing when the node's mode is known: the object carries it. *)
Lemma plmem_probe_resolved (pdev : platform_device) (k : kernel) (res : resource)
    (mode : plmem_mode) :
  devm_kzalloc_fails (faults k) = false ->
  platform_get_resource pdev IORESOURCE_MEM 0 = Some res ->
  match find_property "topic,mem-type" (pdev_properties pdev) with
  | None =>
      mode = if device_is_compatible pdev "topic,iotester"
             then noncached else writecombine
  | Some s =>
      (s = "writecombine" /\ mode = writecombine) \/
      (s = "cached" /\ mode = cached) \/
      (s = "noncached" /\ mode = noncached)
  end ->
  exists rc k' d',
    plmem_probe pdev k = Ret rc k' /\
    mmap_mode d' = mode /\
    probe_result pdev res k rc k' d'.
Proof.
  intros Hf Hres Hmode.
  rewrite (plmem_probe_run pdev k res Hf Hres). cbv zeta.
  assert (exists rc k' d',
      match find_property "label" (pdev_properties pdev) with
      | Some l =>
          plmem_create_cdev (length (heap k)) l (resolved_state pdev res mode k)
      | None =>
          plmem_create_cdev (length (heap k)) "plmem"
            (set_klog (klog k ++ [(Some (pdev_dev pdev),
                                   "No label, using default: plmem" +:+ nl)])
               (resolved_state pdev res mode k))
      end = Ret rc k' /\
      mmap_mode d' = mode /\
      probe_result pdev res k rc k' d') as Hpub.
  { destruct (find_property "label" (pdev_properties pdev)) as [l|].
    - destruct (publish_cases pdev k (resolved_state pdev res mode k) res mode l)
        as (rc & k' & d' & H); try done.
      by exists rc, k', d'.
    - destruct (publish_cases pdev k
                  (set_klog (klog k ++ [(Some (pdev_dev pdev),
                                         "No label, using default: plmem" +:+ nl)])
                     (resolved_state pdev res mode k)) res mode "plmem")
        as (rc & k' & d' & H); try done.
      by exists rc, k', d'. }
  destruct (find_property "topic,mem-type" (pdev_properties pdev)) as [s|].
  - destruct Hmode as [[-> ->]|[[-> ->]|[-> ->]]];
      cbn [String.eqb Ascii.eqb Bool.eqb]; cbv iota; exact Hpub.
  - subst mode. exact Hpub.
Qed.

(** ** More on teardown *)

Lemma plmem_remove_frame (pdev : platform_device) (k : kernel) (data : ptr)
    (d : plmem_data) (major : Z) :
  drvdata k !! pdev_dev pdev = Some data ->
  heap k !! data = Some d ->
  devt d = MKDEV major 0 ->
  0 <= major < 2048 ->
  exists k2,
    plmem_remove pdev k = Ret tt k2 /\
    heap k2 = heap k /\ drvdata k2 = drvdata k /\
    cdev_map k2 = cdev_map k /\ klog k2 = klog k /\
    class_devs k2 = remove_node (devt d) (class_devs k) /\
    (forall cd, In cd (chrdevs k2) -> In cd (chrdevs k)) /\
    (forall cd, cd_minorct cd <> 2 ^ 20 -> In cd (chrdevs k) -> In cd (chrdevs k2)).
Proof.
  intros Hdrv Hd Hdevt Hm.
  destruct (unregister_chrdev_loop_majors MAJOR_STEPS major (2 * major) (chrdevs k))
    as (tbl & Hloop & Hkeep); [lia|lia|unfold MAJOR_STEPS; lia|].
  exists (set_chrdevs tbl (set_class_devs (remove_node (devt d) (class_devs k)) k)).
  split.
  - unfold plmem_remove, dev_get_drvdata, bind at 1, get. rewrite Hdrv.
    change (seqZ 0 NUMBER_OF_CDEV) with [0]. cbn [destroy_nodes].
    unfold bind, device_destroy, modify, ret, unregister_chrdev_region.
    rewrite (load_at _ _ _ Hd). proj.
    unfold load. proj. rewrite Hd. proj.
    rewrite Hdevt, MKDEV_major_0 by lia. unfold NUMBER_OF_CDEV, u32.
    rewrite (Z.mod_small (major * 2 ^ 20 + 1 - 1)) by lia.
    rewrite !Z.mod_small by lia.
    replace (major * 2 ^ 20 + (major * 2 ^ 20 + 1 - 1)) with (2 * major * 2 ^ 20)
      by lia.
    rewrite Z.add_0_r, Hloop. done.
  - proj. split_and!; try done.
    by apply (unregister_chrdev_loop_incl _ _ _ _ _ Hloop).
Qed.

(** ** Publishing, path by path *)

(** X1: when no device number can be allocated, because the table entry
    cannot be allocated or because every dynamic major is taken,
    [plmem_create_cdev] returns [-ENOMEM] resp. [-EBUSY] and leaves the kernel
    exactly as it was. *)
Theorem create_cdev_allocation_failure (k : kernel) (data : ptr) (label : string)
    (d : plmem_data) :
  heap k !! data = Some d ->
  chrdev_kzalloc_fails (faults k) = true \/ find_dynamic_major (chrdevs k) < 0 ->
  plmem_create_cdev data label k =
    Ret (neg (if chrdev_kzalloc_fails (faults k) then ENOMEM else EBUSY)) k.
Proof.
  intros Hd Hfail.
  destruct (plmem_create_cdev_alloc_fails k data label d Hd) as [Hm Hb].
  destruct (chrdev_kzalloc_fails (faults k)); [by apply Hm|].
  destruct Hfail as [|Hneg]; [done|]. by apply Hb.
Qed.

(** X2: when [cdev_add] fails, [plmem_create_cdev] logs "cdev_add() failed",
    returns that (negative) error, and the device-number table, the cdev map
    and the class devices are as before the call. *)
Theorem cdev_add_failure_rolls_back (k : kernel) (data : ptr) (label : string)
    (d : plmem_data) (e : errno) :
  heap k !! data = Some d ->
  chrdev_kzalloc_fails (faults k) = false ->
  0 <= find_dynamic_major (chrdevs k) ->
  kobj_map_error (faults k) = Some e ->
  exists k',
    plmem_create_cdev data label k = Ret (neg e) k' /\
    neg e < 0 /\
    chrdevs k' = chrdevs k /\
    cdev_map k' = cdev_map k /\
    class_devs k' = class_devs k /\
    klog k' = klog k ++ [(dev d, "cdev_add() failed" +:+ nl)].
Proof.
  intros Hd Hf Hdyn Hmap.
  destruct (plmem_create_cdev_run k data label d Hd Hf Hdyn) as (tbl & _ & Hrun).
  rewrite Hrun, Hmap. eexists. split; [reflexivity|].
  split; [apply neg_negative|done].
Qed.

(** X3: a return of 0 from [plmem_create_cdev] means that one dynamic major
    was taken and that the same device number [MKDEV major 0] is stored in the
    object, registered in the cdev map for this object's cdev with the
    driver's file operations, and carried by the one new node, whose parent is
    the platform device, whose driver data is the object and whose name is the
    label; the table gained exactly the one-minor range, and the region and
    the mode of the object are untouched. *)
Theorem successful_publish_is_consistent (k k1 : kernel) (data : ptr)
    (label : string) :
  plmem_create_cdev data label k = Ret 0 k1 ->
  exists d d1 major,
    heap k !! data = Some d /\ heap k1 !! data = Some d1 /\
    CHRDEV_MAJOR_DYN_END <= major <= CHRDEV_MAJOR_DYN_EXT_START /\
    devt d1 = MKDEV major 0 /\
    cdev_command d1 = published_cdev (devt d1) /\
    (dev d1 = dev d /\ mem_start d1 = mem_start d /\
     mem_size d1 = mem_size d /\ mmap_mode d1 = mmap_mode d) /\
    cdev_map k1 =
      {| p_dev := devt d1; p_range := 1; p_data := cdev_command_of data |}
        :: cdev_map k /\
    class_devs k1 =
      class_devs k ++ [{| node_devt := devt d1; node_parent := dev d;
                          node_drvdata := data; node_name := label |}] /\
    ~ In (region major 0 NUMBER_OF_CDEV DRIVER_CLASS_NAME) (chrdevs k) /\
    (forall cd, In cd (chrdevs k1) <->
                cd = region major 0 NUMBER_OF_CDEV DRIVER_CLASS_NAME \/ In cd (chrdevs k)).
Proof.
  intros Hpub.
  destruct (plmem_create_cdev_success k k1 data label Hpub)
    as (d & tbl & Hd & -> & Hins & Hnin & Hr).
  exists d, (set_cdev_command (published_cdev (MKDEV (find_dynamic_major (chrdevs k)) 0))
               (set_devt (MKDEV (find_dynamic_major (chrdevs k)) 0) d)),
    (find_dynamic_major (chrdevs k)).
  unfold published_state. proj.
  rewrite (lookup_stored _ _ _ Hd).
  do 9 (split; [done|]).
  intros cd. by apply chain_insert_In.
Qed.

(** X4: on a valid object [plmem_create_cdev] always returns, never with a
    positive code; a negative code means the device-number table and the
    class devices are unchanged, 0 means exactly one node was appended; other
    driver objects and the driver-data table are never touched. *)
Theorem create_cdev_return_code (k : kernel) (data : ptr) (label : string)
    (d : plmem_data) :
  heap k !! data = Some d ->
  exists rc k',
    plmem_create_cdev data label k = Ret rc k' /\
    rc <= 0 /\
    (rc < 0 -> chrdevs k' = chrdevs k /\ class_devs k' = class_devs k) /\
    (rc = 0 -> exists nd, class_devs k' = class_devs k ++ [nd] /\
                          node_drvdata nd = data /\ node_name nd = label) /\
    drvdata k' = drvdata k /\
    (forall q, q <> data -> heap k' !! q = heap k !! q).
Proof.
  intros Hd.
  destruct (plmem_create_cdev_cases k data label d Hd)
    as (rc & k' & d' & Hrun & Hheap & Hdrv & _ & Hcase).
  exists rc, k'. split; [done|].
  assert (forall q, q <> data -> heap k' !! q = heap k !! q) as Hframe.
  { intros q Hq. rewrite Hheap. by apply list_lookup_insert_ne. }
  destruct Hcase as [(Hrc & Hc & Hn & _)|(Hrc & tbl & -> & _)].
  - split; [lia|]. split; [done|]. split; [lia|done].
  - split; [lia|]. split; [lia|]. split; [|done].
    intros _. eexists. unfold published_state. proj. done.
Qed.

(** ** Probing *)

(** X5: when the node has a memory resource, [plmem_probe] returns; 0 means
    exactly one node was added, for the object that is now the device's
    driver data, under a device number whose range is now registered; a
    negative code means no node and no range were added, and when the driver
    object cannot be allocated the code is [-ENOMEM] and nothing changed. *)
Theorem probe_return_code_tells_publication (pdev : platform_device) (k : kernel)
    (res : resource) :
  platform_get_resource pdev IORESOURCE_MEM 0 = Some res ->
  exists rc k',
    plmem_probe pdev k = Ret rc k' /\
    ((rc = 0 /\
      exists nd data d major,
        class_devs k' = class_devs k ++ [nd] /\
        drvdata k' !! pdev_dev pdev = Some data /\
        heap k' !! data = Some d /\
        node_drvdata nd = data /\ node_devt nd = devt d /\
        node_parent nd = Some (pdev_dev pdev) /\
        devt d = MKDEV major 0 /\
        ~ In (region major 0 NUMBER_OF_CDEV DRIVER_CLASS_NAME) (chrdevs k) /\
        In (region major 0 NUMBER_OF_CDEV DRIVER_CLASS_NAME) (chrdevs k'))
     \/
     (rc < 0 /\ class_devs k' = class_devs k /\ chrdevs k' = chrdevs k)) /\
    (devm_kzalloc_fails (faults k) = true -> rc = neg ENOMEM /\ k' = k).
Proof.
  intros Hres.
  destruct (devm_kzalloc_fails (faults k)) eqn:Hf.
  { exists (neg ENOMEM), k. split.
    - unfold plmem_probe, bind, devm_kzalloc. by rewrite Hf.
    - split; [|done]. right. pose proof (neg_negative ENOMEM). done. }
  destruct (plmem_probe_cases pdev k res Hf Hres)
    as (rc & k' & d' & Hrun & Hheap & Hdrv & _ & _ & _ & Hcase).
  exists rc, k'. split; [done|]. split; [|done].
  destruct Hcase
    as [(Hrc & Hc & Hn & _)|(Hrc & label & Hdyn & Hins & Hn & Hm & Hdv & _)].
  - right. done.
  - left. split; [done|].
    eexists _, (length (heap k)), d', (find_dynamic_major (chrdevs k)).
    split; [exact Hn|]. rewrite Hdrv, lookup_insert_eq, Hheap, snoc_lookup, Hdv.
    do 6 (split; [done|]).
    destruct (find_dynamic_major_spec _ Hdyn) as [_ Hun].
    split.
    + by apply (major_unused_not_in _ (region _ 0 1 "plmem")).
    + apply (chain_insert_In _ _ _ Hins). by left.
Qed.

(** The state in which a probe without memory resource faults. *)
Lemma plmem_probe_no_resource (pdev : platform_device) (k : kernel) :
  devm_kzalloc_fails (faults k) = false ->
  platform_get_resource pdev IORESOURCE_MEM 0 = None ->
  plmem_probe pdev k =
    Crash NullDeref
      (set_heap (heap k ++ [set_dev (Some (pdev_dev pdev)) zero_plmem_data])
         (set_drvdata (<[pdev_dev pdev := length (heap k)]> (drvdata k)) k)).
Proof.
  intros Hf Hres. unfold plmem_probe.
  unfold bind at 1, devm_kzalloc. rewrite Hf, Hres.
  unfold platform_set_drvdata, bind, store, modify, crash. proj.
  rewrite snoc_lookup. proj. by rewrite snoc_insert.
Qed.

(** X6: whatever a probe does (return or fault), it leaves every existing
    driver object, the driver data of every other device, and every existing
    node, cdev map entry and device-number range in place. *)
Theorem probe_spares_other_devices (pdev : platform_device) (k : kernel) :
  let k' := final_state (plmem_probe pdev k) in
  (forall p d, heap k !! p = Some d -> heap k' !! p = Some d) /\
  (forall dv, dv <> pdev_dev pdev -> drvdata k' !! dv = drvdata k !! dv) /\
  (forall nd, In nd (class_devs k) -> In nd (class_devs k')) /\
  (forall pr, In pr (cdev_map k) -> In pr (cdev_map k')) /\
  (forall cd, In cd (chrdevs k) -> In cd (chrdevs k')).
Proof.
  cbv zeta.
  destruct (devm_kzalloc_fails (faults k)) eqn:Hf.
  { unfold plmem_probe, bind, devm_kzalloc. rewrite Hf. by simpl. }
  destruct (platform_get_resource pdev IORESOURCE_MEM 0) as [res|] eqn:Hres.
  2: { rewrite (plmem_probe_no_resource pdev k Hf Hres). cbn [final_state]. proj.
       split; [|split; [|done]].
       - intros p d Hp. by apply lookup_app_l_Some.
       - intros dv Hdv. by apply lookup_insert_ne. }
  destruct (plmem_probe_cases pdev k res Hf Hres)
    as (rc & k' & d' & -> & Hheap & Hdrv & _ & _ & _ & Hcase).
  cbn [final_state]. rewrite Hheap, Hdrv.
  split; [|split].
  - intros p d Hp. by apply lookup_app_l_Some.
  - intros dv Hdv. by apply lookup_insert_ne.
  - destruct Hcase
      as [(_ & -> & -> & Hm)|(_ & label & _ & Hins & -> & -> & _)].
    + split; [done|]. split; [|done].
      destruct Hm as [->|[pr ->]]; [done|]. intros pr'. by right.
    + split; [intros nd Hin; apply in_or_app; by left|].
      split; [intros pr; by right|].
      intros cd Hin. apply (chain_insert_In _ _ _ Hins). by right.
Qed.

(** X7: the object of a probed device records the parent device, the start
    of the first memory resource as base, and [end - start + 1] as length
    whenever that fits 64 bits; a resource spanning all 2^64 addresses is
    recorded with length 0. *)
Theorem probe_records_region (pdev : platform_device) (k : kernel) (res : resource) :
  devm_kzalloc_fails (faults k) = false ->
  platform_get_resource pdev IORESOURCE_MEM 0 = Some res ->
  exists rc k' data d,
    plmem_probe pdev k = Ret rc k' /\
    drvdata k' !! pdev_dev pdev = Some data /\
    heap k' !! data = Some d /\
    dev d = Some (pdev_dev pdev) /\
    mem_start d = res_start res /\
    (0 <= res_end res - res_start res + 1 < 2 ^ 64 ->
     mem_size d = res_end res - res_start res + 1) /\
    (res_end res - res_start res + 1 = 2 ^ 64 -> mem_size d = 0).
Proof.
  intros Hf Hres.
  destruct (plmem_probe_cases pdev k res Hf Hres)
    as (rc & k' & d' & Hrun & Hheap & Hdrv & Hdev & Hs & Hsz & _).
  exists rc, k', (length (heap k)), d'. split; [done|].
  rewrite Hdrv, lookup_insert_eq, Hheap, snoc_lookup, Hsz.
  do 4 (split; [done|]). unfold ulong, BITS_PER_LONG. split.
  - intros Hr. by apply Z.mod_small.
  - intros ->. by apply Z.mod_same.
Qed.

(** ** The name of the node *)

Lemma kvasprintf_no_args_plain (s : string) :
  strchr s "%" = false -> kvasprintf_no_args s = Some s.
Proof.
  induction s as [|c s IH]; [done|]. cbn [strchr kvasprintf_no_args].
  intros H. apply orb_false_elim in H as [Hc Hs].
  by rewrite Hc, (IH Hs).
Qed.

Lemma kvasprintf_no_args_length (n : nat) (fmt s : string) :
  (String.length fmt <= n)%nat ->
  kvasprintf_no_args fmt = Some s ->
  (String.length s <= String.length fmt)%nat /\
  (strchr fmt "%" = true -> (String.length s < String.length fmt)%nat).
Proof.
  revert fmt s. induction n as [|n IH]; intros fmt s Hn.
  - destruct fmt; [|simpl in Hn; lia]. intros [= <-]. by simpl.
  - destruct fmt as [|c rest]; [intros [= <-]; by simpl|].
    cbn [kvasprintf_no_args strchr String.length] in *.
    destruct (Ascii.eqb c "%") eqn:Hc.
    + destruct rest as [|c' rest']; [done|].
      destruct (Ascii.eqb c' "%"); [|done].
      destruct (kvasprintf_no_args rest') as [t|] eqn:Ht; [|done].
      intros [= <-]. cbn [String.length] in *.
      destruct (IH rest' t) as [Hle _]; [lia|done|]. lia.
    + destruct (kvasprintf_no_args rest) as [t|] eqn:Ht; [|done].
      intros [= <-]. cbn [String.length orb].
      destruct (IH rest t) as [Hle Hlt]; [lia|done|].
      split; [lia|]. intros H. specialize (Hlt H). lia.
Qed.

Lemma strreplace_length (s : string) (a b : ascii) :
  String.length (strreplace s a b) = String.length s.
Proof. induction s; simpl; congruence. Qed.

Lemma strreplace_absent (s : string) (a b : ascii) :
  strchr s a = false -> strreplace s a b = s.
Proof.
  induction s as [|c s IH]; [done|]. cbn [strchr strreplace].
  intros H. apply orb_false_elim in H as [Hc Hs]. by rewrite Hc, (IH Hs).
Qed.

Lemma strreplace_fixed (s : string) (a b : ascii) :
  a <> b -> strreplace s a b = s -> strchr s a = false.
Proof.
  intros Hab. induction s as [|c s IH]; [done|]. cbn [strchr strreplace].
  intros [= Hc Hs]. rewrite (IH Hs), orb_false_r.
  destruct (Ascii.eqb_spec c a) as [->|]; [|done]. congruence.
Qed.

(** The name the kernel gives is the format itself exactly when the format has
    neither a per-cent sign nor a slash. *)
Lemma kobject_set_name_verbatim (fmt : string) :
  kobject_set_name fmt = Some fmt <->
  strchr fmt "%" = false /\ strchr fmt "/" = false.
Proof.
  unfold kobject_set_name. split.
  - destruct (kvasprintf_no_args fmt) as [s|] eqn:Hs; [|done].
    intros [= Hrep].
    destruct (kvasprintf_no_args_length _ fmt s (le_n _) Hs) as [_ Hlt].
    assert (String.length s = String.length fmt) as Hlen
      by (rewrite <- (strreplace_length s "/" "!"); by rewrite Hrep).
    destruct (strchr fmt "%") eqn:Hp; [specialize (Hlt eq_refl); lia|].
    split; [done|].
    rewrite (kvasprintf_no_args_plain _ Hp) in Hs. injection Hs as <-.
    by apply (strreplace_fixed fmt "/" "!").
  - intros [Hp Hs]. rewrite (kvasprintf_no_args_plain _ Hp). cbn.
    by rewrite (strreplace_absent _ _ _ Hs).
Qed.

(** C8: [plmem_probe] hands the label to [device_create] as its format, not as
    an argument of one.  When it returns 0 it has added one node.  With a
    [label] property nothing is logged and the node's format is the property;
    the name the kernel gives the node is that format printed without
    arguments, which is the label itself exactly when the label has neither a
    per-cent sign nor a slash.  Without the property the node is named
    "plmem" and one line saying so is logged. *)
Theorem label_is_passed_as_format (pdev : platform_device) (k k' : kernel) :
  plmem_probe pdev k = Ret 0 k' ->
  exists nd,
    class_devs k' = class_devs k ++ [nd] /\
    match find_property "label" (pdev_properties pdev) with
    | Some l =>
        node_name nd = l /\
        klog k' = klog k /\
        dev_name nd = kobject_set_name l /\
        (dev_name nd = Some l <->
         strchr l "%" = false /\ strchr l "/" = false)
    | None =>
        node_name nd = "plmem" /\
        dev_name nd = Some "plmem" /\
        klog k' = klog k ++ [(Some (pdev_dev pdev),
                              "No label, using default: plmem" +:+ nl)]
    end.
Proof.
  intros Hrun.
  destruct (devm_kzalloc_fails (faults k)) eqn:Hf.
  { unfold plmem_probe, bind, devm_kzalloc in Hrun. rewrite Hf in Hrun.
    by injection Hrun. }
  destruct (platform_get_resource pdev IORESOURCE_MEM 0) as [res|] eqn:Hres.
  2: { by rewrite (plmem_probe_no_resource pdev k Hf Hres) in Hrun. }
  rewrite (plmem_probe_run pdev k res Hf Hres) in Hrun. cbv zeta in Hrun.
  assert (forall mode,
    match find_property "label" (pdev_properties pdev) with
    | Some l =>
        plmem_create_cdev (length (heap k)) l (resolved_state pdev res mode k)
    | None =>
        plmem_create_cdev (length (heap k)) "plmem"
          (set_klog (klog k ++ [(Some (pdev_dev pdev),
                                 "No label, using default: plmem" +:+ nl)])
             (resolved_state pdev res mode k))
    end = Ret 0 k' ->
    exists nd,
      class_devs k' = class_devs k ++ [nd] /\
      match find_property "label" (pdev_properties pdev) with
      | Some l =>
          node_name nd = l /\ klog k' = klog k /\
          dev_name nd = kobject_set_name l /\
          (dev_name nd = Some l <->
           strchr l "%" = false /\ strchr l "/" = false)
      | None =>
          node_name nd = "plmem" /\ dev_name nd = Some "plmem" /\
          klog k' = klog k ++ [(Some (pdev_dev pdev),
                                "No label, using default: plmem" +:+ nl)]
      end) as Hpub.
  { intros mode Hc.
    destruct (find_property "label" (pdev_properties pdev)) as [l|];
      destruct (plmem_create_cdev_success _ _ _ _ Hc) as (d & tbl & _ & -> & _);
      eexists; (split; [reflexivity|]); unfold dev_name; cbn [node_name];
      unfold published_state, resolved_state; proj.
    - do 3 (split; [done|]). apply kobject_set_name_verbatim.
    - done. }
  destruct (find_property "topic,mem-type" (pdev_properties pdev)) as [s|];
    [|by eapply Hpub].
  repeat match type of Hrun with
         | context [String.eqb s ?x] => destruct (String.eqb s x)
         end;
    first [ exfalso; injection Hrun as Hrc _;
            pose proof (neg_negative EINVAL); lia
          | by eapply Hpub ].
Qed.

(** ** Several devices, several rounds *)

(** X9: two publications in a row give the two objects different device
    numbers. *)
Theorem successive_publications_differ (k k1 k2 : kernel) (data1 data2 : ptr)
    (label1 label2 : string) :
  plmem_create_cdev data1 label1 k = Ret 0 k1 ->
  plmem_create_cdev data2 label2 k1 = Ret 0 k2 ->
  data1 <> data2 ->
  exists d1 d2,
    heap k2 !! data1 = Some d1 /\ heap k2 !! data2 = Some d2 /\
    devt d1 <> devt d2.
Proof.
  intros H1 H2 Hne.
  destruct (plmem_create_cdev_success _ _ _ _ H1)
    as (da & tbl1 & Hda & -> & Hins1 & _ & Hr1).
  destruct (plmem_create_cdev_success _ _ _ _ H2)
    as (db & tbl2 & Hdb & -> & _ & Hnin2 & Hr2).
  unfold published_state in *. revert Hdb Hnin2 Hr2. proj. intros Hdb Hnin2 Hr2.
  do 2 eexists. rewrite list_lookup_insert_ne by done.
  rewrite (lookup_stored _ _ _ Hda), (lookup_stored _ _ _ Hdb).
  split; [done|]. split; [done|]. cbn [devt set_cdev_command set_devt].
  set (m1 := find_dynamic_major (chrdevs k)) in *.
  set (m2 := find_dynamic_major tbl1) in *.
  assert (m1 <> m2) as Hm.
  { intros Heq. apply Hnin2. rewrite <- Heq.
    apply (chain_insert_In _ _ _ Hins1). by left. }
  unfold CHRDEV_MAJOR_DYN_END, CHRDEV_MAJOR_DYN_EXT_START in *.
  rewrite !MKDEV_major_0 by lia. lia.
Qed.

(** X10: [plmem_remove] on a published device returns; it changes nothing but
    the class devices and the device-number table, adds to neither, keeps
    every node of another device number and every range that is not a whole
    major: the cdev map entry made at publication stays. *)
Theorem remove_spares_other_devices (pdev : platform_device) (k : kernel)
    (data : ptr) (d : plmem_data) (major : Z) :
  drvdata k !! pdev_dev pdev = Some data ->
  heap k !! data = Some d ->
  devt d = MKDEV major 0 ->
  0 <= major < 2048 ->
  exists k2,
    plmem_remove pdev k = Ret tt k2 /\
    heap k2 = heap k /\ drvdata k2 = drvdata k /\
    cdev_map k2 = cdev_map k /\ klog k2 = klog k /\
    (forall nd, In nd (class_devs k2) -> In nd (class_devs k)) /\
    (forall nd, node_devt nd <> devt d -> In nd (class_devs k) ->
                In nd (class_devs k2)) /\
    (forall cd, In cd (chrdevs k2) -> In cd (chrdevs k)) /\
    (forall cd, cd_minorct cd <> 2 ^ 20 -> In cd (chrdevs k) -> In cd (chrdevs k2)).
Proof.
  intros Hdrv Hd Hdevt Hm.
  destruct (plmem_remove_frame pdev k data d major Hdrv Hd Hdevt Hm)
    as (k2 & Hrun & Hh & Hdd & Hc & Hl & Hn & Hsub & Hkeep).
  exists k2. do 5 (split; [done|]). rewrite Hn.
  split; [apply remove_node_incl|].
  split; [intros nd Hne; by apply remove_node_keeps|done].
Qed.

(** X11: publication followed by removal leaves the class devices as they
    were before the publication, provided no earlier node already carried the
    new device number; the cdev map keeps the entry and the objects are
    untouched. *)
Theorem remove_takes_the_node_away (k k1 : kernel) (data : ptr) (label : string)
    (pdev : platform_device) :
  plmem_create_cdev data label k = Ret 0 k1 ->
  drvdata k1 !! pdev_dev pdev = Some data ->
  (forall nd, In nd (class_devs k) ->
              node_devt nd <> MKDEV (find_dynamic_major (chrdevs k)) 0) ->
  exists k2,
    plmem_remove pdev k1 = Ret tt k2 /\
    class_devs k2 = class_devs k /\
    cdev_map k2 = cdev_map k1 /\
    heap k2 = heap k1.
Proof.
  intros Hpub Hdrv Hfresh.
  destruct (plmem_create_cdev_success _ _ _ _ Hpub)
    as (d & tbl & Hd & -> & _ & _ & Hr).
  unfold CHRDEV_MAJOR_DYN_END, CHRDEV_MAJOR_DYN_EXT_START in Hr.
  destruct (plmem_remove_frame pdev _ data
              (set_cdev_command
                 (published_cdev (MKDEV (find_dynamic_major (chrdevs k)) 0))
                 (set_devt (MKDEV (find_dynamic_major (chrdevs k)) 0) d))
              (find_dynamic_major (chrdevs k)) Hdrv)
    as (k2 & Hrun & Hh & _ & Hc & _ & Hn & _).
  { unfold published_state. proj. apply (lookup_stored _ _ _ Hd). }
  { reflexivity. }
  { lia. }
  exists k2. split; [done|]. split; [|done].
  rewrite Hn. unfold published_state. proj. cbn [devt set_cdev_command set_devt].
  by apply remove_node_last.
Qed.

(** X12: a publication that follows a removal never gets the device number
    of the removed device: each round of publishing and removing uses up one
    dynamic major. *)
Theorem number_not_reused_after_remove (k k1 k2 k3 : kernel) (data data' : ptr)
    (label label' : string) (pdev : platform_device) :
  plmem_create_cdev data label k = Ret 0 k1 ->
  drvdata k1 !! pdev_dev pdev = Some data ->
  plmem_remove pdev k1 = Ret tt k2 ->
  plmem_create_cdev data' label' k2 = Ret 0 k3 ->
  exists l1 nd1 l3 nd3,
    class_devs k1 = l1 ++ [nd1] /\
    class_devs k3 = l3 ++ [nd3] /\
    node_drvdata nd1 = data /\ node_drvdata nd3 = data' /\
    node_devt nd1 <> node_devt nd3.
Proof.
  intros H1 Hdrv Hrem H3.
  destruct (plmem_create_cdev_success _ _ _ _ H1)
    as (d & tbl & Hd & -> & Hins & _ & Hr).
  unfold CHRDEV_MAJOR_DYN_END, CHRDEV_MAJOR_DYN_EXT_START in Hr.
  destruct (plmem_remove_frame pdev _ data
              (set_cdev_command
                 (published_cdev (MKDEV (find_dynamic_major (chrdevs k)) 0))
                 (set_devt (MKDEV (find_dynamic_major (chrdevs k)) 0) d))
              (find_dynamic_major (chrdevs k)) Hdrv)
    as (k2' & Hrun & _ & _ & _ & _ & _ & _ & Hkeep).
  { unfold published_state. proj. apply (lookup_stored _ _ _ Hd). }
  { reflexivity. }
  { lia. }
  rewrite Hrun in Hrem. injection Hrem as ->.
  destruct (plmem_create_cdev_success _ _ _ _ H3)
    as (d3 & tbl3 & Hd3 & -> & _ & Hnin3 & Hr3).
  unfold CHRDEV_MAJOR_DYN_END, CHRDEV_MAJOR_DYN_EXT_START in Hr3.
  do 4 eexists. unfold published_state. proj.
  split; [reflexivity|]. split; [reflexivity|]. split; [done|]. split; [done|].
  cbn [node_devt].
  set (m1 := find_dynamic_major (chrdevs k)) in *.
  set (m3 := find_dynamic_major (chrdevs k2)) in *.
  assert (m1 <> m3) as Hm.
  { intros Heq. apply Hnin3. rewrite <- Heq. apply Hkeep.
    - unfold region. simpl. lia.
    - unfold published_state. proj. apply (chain_insert_In _ _ _ Hins). by left. }
  rewrite !MKDEV_major_0 by lia. lia.
Qed.

Section MoreFileOperations.
Context `{mm : mm_ops}.

(** X8: from firmware to mapping.  After a successful probe, opening an
    inode of the registered cdev and mapping through the file hands the helper
    the base and length of the node's memory resource and a mapping whose page
    attribute is the caller's made non-cached, made write-combined or left as
    it came, according to the mode the node's properties selected; bounds,
    offset and flags are the caller's. *)
Theorem probe_open_mmap (pdev : platform_device) (k k' : kernel) (res : resource)
    (mode : plmem_mode) :
  plmem_probe pdev k = Ret 0 k' ->
  platform_get_resource pdev IORESOURCE_MEM 0 = Some res ->
  match find_property "topic,mem-type" (pdev_properties pdev) with
  | None =>
      mode = if device_is_compatible pdev "topic,iotester"
             then noncached else writecombine
  | Some s =>
      (s = "writecombine" /\ mode = writecombine) \/
      (s = "cached" /\ mode = cached) \/
      (s = "noncached" /\ mode = noncached)
  end ->
  exists pr,
    head (cdev_map k') = Some pr /\
    forall (ino : inode) (filp : file) (vma : vm_area_struct),
      i_cdev ino = p_data pr ->
      exists vma',
        bind (plmem_open ino filp) (fun r => plmem_mmap (snd r) vma) k' =
          Ret (vm_iomap_memory vma' (res_start res)
                 (ulong (res_end res - res_start res + 1))) k' /\
        vm_page_prot vma' =
          match mode with
          | noncached => pgprot_noncached (vm_page_prot vma)
          | writecombine => pgprot_writecombine (vm_page_prot vma)
          | cached => vm_page_prot vma
          end /\
        vm_start vma' = vm_start vma /\ vm_end vma' = vm_end vma /\
        vm_pgoff vma' = vm_pgoff vma /\ vm_flags vma' = vm_flags vma.
Proof.
  intros Hrun Hres Hmode.
  destruct (devm_kzalloc_fails (faults k)) eqn:Hf.
  { unfold plmem_probe, bind, devm_kzalloc in Hrun. rewrite Hf in Hrun.
    by injection Hrun. }
  destruct (plmem_probe_resolved pdev k res mode Hf Hres Hmode)
    as (rc & k'' & d' & Hrun' & Hm & Hheap & _ & _ & Hs & Hsz & Hcase).
  rewrite Hrun in Hrun'. injection Hrun' as <- <-.
  destruct Hcase as [(Hneg & _)|(_ & label & _ & _ & _ & Hmap & _)]; [lia|].
  eexists. rewrite Hmap. split; [reflexivity|].
  intros ino filp vma Hi. cbn [p_data] in Hi.
  unfold plmem_open, bind, ret, plmem_mmap. rewrite Hi.
  cbn [container_of snd private_data].
  unfold bind. erewrite load_at by (rewrite Hheap; apply snoc_lookup).
  rewrite Hm, Hs, Hsz. eexists. split; [reflexivity|]. by destruct mode.
Qed.
(** X13: [plmem_mmap] hands over the caller's mapping request as it came,
    bounds, offset and flags, whatever the mode. *)
Theorem plmem_mmap_keeps_the_request (filp : file) (vma : vm_area_struct)
    (k : kernel) (data : ptr) (d : plmem_data) :
  private_data filp = Some data ->
  heap k !! data = Some d ->
  exists vma',
    plmem_mmap filp vma k =
      Ret (vm_iomap_memory vma' (mem_start d) (mem_size d)) k /\
    vm_start vma' = vm_start vma /\ vm_end vma' = vm_end vma /\
    vm_pgoff vma' = vm_pgoff vma /\ vm_flags vma' = vm_flags vma.
Proof.
  intros Hp Hd. unfold plmem_mmap, bind. rewrite Hp, (load_at _ _ _ Hd).
  eexists. split; [reflexivity|]. by destruct (mmap_mode d).
Qed.

(** X14: a session without [mmap] never faults: every [ioctl] in it returns
    [-ENOTTY] whatever the request, every [open] and [release] returns 0, and
    the file ends up attached to the object of the last inode opened. *)
Theorem session_without_mmap (calls : list file_call) (filp : file) (k : kernel) :
  (forall vma, ~ In (call_mmap vma) calls) ->
  session calls filp k =
    Ret (map (fun c => match c with
                       | call_unlocked_ioctl _ _ => neg ENOTTY
                       | _ => 0
                       end) calls,
         fold_left (fun f c => match c with
                               | call_open ino =>
                                   {| private_data := Some (container_of (i_cdev ino)) |}
                               | _ => f
                               end) calls filp) k.
Proof.
  revert filp. induction calls as [|c calls IH]; intros filp Hno; [done|].
  assert (forall vma, ~ In (call_mmap vma) calls) as Hno'.
  { intros vma Hin. apply (Hno vma). by right. }
  cbn [session map fold_left]. unfold bind at 1.
  destruct c as [vma|cmd arg|ino|ino].
  - exfalso. apply (Hno vma). by left.
  - cbn. unfold bind. by rewrite IH.
  - cbn. unfold bind. by rewrite IH.
  - cbn. unfold bind. by rewrite IH.
Qed.

End MoreFileOperations.

(* ===================================================================== *)
(** * Part 6: the further properties on the sample inputs                 *)
(* ===================================================================== *)

Lemma create_cdev_allocation_failure_witness :
  let k := resolved_state fpga_ram ram_64k writecombine boot_majors_exhausted in
  plmem_create_cdev 0%nat "fpga0" k = Ret (neg EBUSY) k.
Proof.
  apply (create_cdev_allocation_failure
           (resolved_state fpga_ram ram_64k writecombine boot_majors_exhausted)
           0%nat "fpga0" (resolved_data fpga_ram ram_64k writecombine));
    [reflexivity | right; vm_compute; reflexivity].
Defined.

Lemma cdev_add_failure_rolls_back_witness :
  let k := resolved_state fpga_ram ram_64k writecombine boot_cdev_add_fails in
  exists k',
    plmem_create_cdev 0%nat "fpga0" k = Ret (neg ENOMEM) k' /\
    neg ENOMEM < 0 /\
    chrdevs k' = chrdevs k /\
    cdev_map k' = cdev_map k /\
    class_devs k' = class_devs k /\
    klog k' = klog k ++ [(Some 7%nat, "cdev_add() failed" +:+ nl)].
Proof.
  apply (cdev_add_failure_rolls_back
           (resolved_state fpga_ram ram_64k writecombine boot_cdev_add_fails)
           0%nat "fpga0" (resolved_data fpga_ram ram_64k writecombine) ENOMEM);
    [reflexivity | reflexivity | vm_compute; discriminate | reflexivity].
Defined.

Lemma successful_publish_is_consistent_witness :
  let k := resolved_state fpga_ram ram_64k writecombine boot in
  exists d d1 major,
    heap k !! 0%nat = Some d /\ heap fpga_ram_probed !! 0%nat = Some d1 /\
    CHRDEV_MAJOR_DYN_END <= major <= CHRDEV_MAJOR_DYN_EXT_START /\
    devt d1 = MKDEV major 0 /\
    cdev_command d1 = published_cdev (devt d1) /\
    (dev d1 = dev d /\ mem_start d1 = mem_start d /\
     mem_size d1 = mem_size d /\ mmap_mode d1 = mmap_mode d) /\
    cdev_map fpga_ram_probed =
      {| p_dev := devt d1; p_range := 1; p_data := cdev_command_of 0%nat |}
        :: cdev_map k /\
    class_devs fpga_ram_probed =
      class_devs k ++ [{| node_devt := devt d1; node_parent := dev d;
                          node_drvdata := 0%nat; node_name := "fpga0" |}] /\
    ~ In (region major 0 NUMBER_OF_CDEV DRIVER_CLASS_NAME) (chrdevs k) /\
    (forall cd, In cd (chrdevs fpga_ram_probed) <->
                cd = region major 0 NUMBER_OF_CDEV DRIVER_CLASS_NAME \/
                In cd (chrdevs k)).
Proof.
  apply (successful_publish_is_consistent
           (resolved_state fpga_ram ram_64k writecombine boot)
           fpga_ram_probed 0%nat "fpga0").
  vm_compute. reflexivity.
Defined.

Lemma create_cdev_return_code_witness :
  let k := resolved_state fpga_ram ram_64k writecombine boot_name_taken in
  exists rc k',
    plmem_create_cdev 0%nat "fpga0" k = Ret rc k' /\
    rc <= 0 /\
    (rc < 0 -> chrdevs k' = chrdevs k /\ class_devs k' = class_devs k) /\
    (rc = 0 -> exists nd, class_devs k' = class_devs k ++ [nd] /\
                          node_drvdata nd = 0%nat /\ node_name nd = "fpga0") /\
    drvdata k' = drvdata k /\
    (forall q, q <> 0%nat -> heap k' !! q = heap k !! q).
Proof.
  apply (create_cdev_return_code
           (resolved_state fpga_ram ram_64k writecombine boot_name_taken)
           0%nat "fpga0" (resolved_data fpga_ram ram_64k writecombine)).
  reflexivity.
Defined.

Lemma probe_return_code_tells_publication_witness :
  exists rc k',
    plmem_probe fpga_ram boot_no_memory = Ret rc k' /\
    ((rc = 0 /\
      exists nd data d major,
        class_devs k' = class_devs boot_no_memory ++ [nd] /\
        drvdata k' !! pdev_dev fpga_ram = Some data /\
        heap k' !! data = Some d /\
        node_drvdata nd = data /\ node_devt nd = devt d /\
        node_parent nd = Some (pdev_dev fpga_ram) /\
        devt d = MKDEV major 0 /\
        ~ In (region major 0 NUMBER_OF_CDEV DRIVER_CLASS_NAME)
             (chrdevs boot_no_memory) /\
        In (region major 0 NUMBER_OF_CDEV DRIVER_CLASS_NAME) (chrdevs k'))
     \/
     (rc < 0 /\ class_devs k' = class_devs boot_no_memory /\
      chrdevs k' = chrdevs boot_no_memory)) /\
    (devm_kzalloc_fails (faults boot_no_memory) = true ->
     rc = neg ENOMEM /\ k' = boot_no_memory).
Proof.
  apply (probe_return_code_tells_publication fpga_ram boot_no_memory ram_64k).
  reflexivity.
Defined.

Lemma probe_records_region_witness :
  exists rc k' data d,
    plmem_probe fpga_regs boot = Ret rc k' /\
    drvdata k' !! pdev_dev fpga_regs = Some data /\
    heap k' !! data = Some d /\
    dev d = Some (pdev_dev fpga_regs) /\
    mem_start d = res_start regs_4k /\
    (0 <= res_end regs_4k - res_start regs_4k + 1 < 2 ^ 64 ->
     mem_size d = res_end regs_4k - res_start regs_4k + 1) /\
    (res_end regs_4k - res_start regs_4k + 1 = 2 ^ 64 -> mem_size d = 0).
Proof.
  apply (probe_records_region fpga_regs boot regs_4k); reflexivity.
Defined.

Lemma probe_open_mmap_witness :
  exists pr,
    head (cdev_map (final_state (plmem_probe iotester boot))) = Some pr /\
    forall (ino : inode) (filp : file) (vma : vm_area_struct),
      i_cdev ino = p_data pr ->
      exists vma',
        bind (plmem_open ino filp)
             (fun r => @plmem_mmap sample_mm_ops (snd r) vma)
             (final_state (plmem_probe iotester boot)) =
          Ret (@vm_iomap_memory sample_mm_ops vma' 0x40000000 0x10000)
            (final_state (plmem_probe iotester boot)) /\
        vm_page_prot vma' = Z.lor (vm_page_prot vma) 1 /\
        vm_start vma' = vm_start vma /\ vm_end vma' = vm_end vma /\
        vm_pgoff vma' = vm_pgoff vma /\ vm_flags vma' = vm_flags vma.
Proof.
  apply (@probe_open_mmap sample_mm_ops iotester boot
           (final_state (plmem_probe iotester boot)) ram_64k noncached);
    [vm_compute; reflexivity | reflexivity | reflexivity].
Defined.

Lemma successive_publications_differ_witness :
  exists d1 d2,
    heap two_published !! 0%nat = Some d1 /\
    heap two_published !! 1%nat = Some d2 /\
    devt d1 <> devt d2.
Proof.
  apply (successive_publications_differ two_resolved one_published two_published
           0%nat 1%nat "fpga0" "regs0");
    [vm_compute; reflexivity | vm_compute; reflexivity | discriminate].
Defined.

Lemma remove_spares_other_devices_witness :
  let d := set_cdev_command (published_cdev fpga_ram_devt)
             (set_devt fpga_ram_devt (resolved_data fpga_ram ram_64k writecombine)) in
  exists k2,
    plmem_remove fpga_ram two_published = Ret tt k2 /\
    heap k2 = heap two_published /\ drvdata k2 = drvdata two_published /\
    cdev_map k2 = cdev_map two_published /\ klog k2 = klog two_published /\
    (forall nd, In nd (class_devs k2) -> In nd (class_devs two_published)) /\
    (forall nd, node_devt nd <> devt d -> In nd (class_devs two_published) ->
                In nd (class_devs k2)) /\
    (forall cd, In cd (chrdevs k2) -> In cd (chrdevs two_published)) /\
    (forall cd, cd_minorct cd <> 2 ^ 20 -> In cd (chrdevs two_published) ->
                In cd (chrdevs k2)).
Proof.
  apply (remove_spares_other_devices fpga_ram two_published 0%nat
           (set_cdev_command (published_cdev fpga_ram_devt)
              (set_devt fpga_ram_devt (resolved_data fpga_ram ram_64k writecombine)))
           254);
    [vm_compute; reflexivity | vm_compute; reflexivity | reflexivity | lia].
Defined.

Lemma remove_takes_the_node_away_witness :
  let k := resolved_state fpga_ram ram_64k writecombine boot in
  exists k2,
    plmem_remove fpga_ram fpga_ram_probed = Ret tt k2 /\
    class_devs k2 = class_devs k /\
    cdev_map k2 = cdev_map fpga_ram_probed /\
    heap k2 = heap fpga_ram_probed.
Proof.
  apply (remove_takes_the_node_away
           (resolved_state fpga_ram ram_64k writecombine boot)
           fpga_ram_probed 0%nat "fpga0" fpga_ram);
    [vm_compute; reflexivity | vm_compute; reflexivity | intros nd []].
Defined.

Lemma number_not_reused_after_remove_witness :
  exists l1 nd1 l3 nd3,
    class_devs fpga_ram_probed = l1 ++ [nd1] /\
    class_devs fpga_ram_republished = l3 ++ [nd3] /\
    node_drvdata nd1 = 0%nat /\ node_drvdata nd3 = 0%nat /\
    node_devt nd1 <> node_devt nd3.
Proof.
  apply (number_not_reused_after_remove
           (resolved_state fpga_ram ram_64k writecombine boot)
           fpga_ram_probed fpga_ram_removed fpga_ram_republished
           0%nat 0%nat "fpga0" "again" fpga_ram);
    vm_compute; reflexivity.
Defined.

Lemma plmem_mmap_keeps_the_request_witness :
  let d := set_cdev_command (published_cdev fpga_ram_devt)
             (set_devt fpga_ram_devt (resolved_data fpga_ram ram_64k writecombine)) in
  exists vma',
    @plmem_mmap sample_mm_ops fpga_ram_file sample_vma fpga_ram_probed =
      Ret (@vm_iomap_memory sample_mm_ops vma' (mem_start d) (mem_size d))
        fpga_ram_probed /\
    vm_start vma' = vm_start sample_vma /\ vm_end vma' = vm_end sample_vma /\
    vm_pgoff vma' = vm_pgoff sample_vma /\ vm_flags vma' = vm_flags sample_vma.
Proof.
  apply (@plmem_mmap_keeps_the_request sample_mm_ops fpga_ram_file sample_vma
           fpga_ram_probed 0%nat);
    [reflexivity | vm_compute; reflexivity].
Defined.

Lemma session_without_mmap_witness :
  @session sample_mm_ops
    [call_open fpga_ram_inode; call_unlocked_ioctl 0x5401 0;
     call_release fpga_ram_inode]
    {| private_data := None |} fpga_ram_probed
  = Ret ([0; neg ENOTTY; 0], fpga_ram_file) fpga_ram_probed.
Proof.
  apply (@session_without_mmap sample_mm_ops
           [call_open fpga_ram_inode; call_unlocked_ioctl 0x5401 0;
            call_release fpga_ram_inode]
           {| private_data := None |} fpga_ram_probed).
  intros vma [H|[H|[H|[]]]]; discriminate H.
Defined.

Lemma label_is_passed_as_format_witness :
  let k' := final_state (plmem_probe percent_label boot) in
  exists nd,
    class_devs k' = class_devs boot ++ [nd] /\
    node_name nd = "bank%%0" /\
    klog k' = klog boot /\
    dev_name nd = kobject_set_name "bank%%0" /\
    (dev_name nd = Some "bank%%0" <->
     strchr "bank%%0" "%" = false /\ strchr "bank%%0" "/" = false).
Proof.
  apply (label_is_passed_as_format percent_label boot
           (final_state (plmem_probe percent_label boot))).
  vm_compute. reflexivity.
Defined.

(** The sample node with the label "bank%%0", evaluated: the device is named
    "bank%0". *)
Example percent_label_node_name :
  exists nd,
    plmem_probe percent_label boot
      = Ret 0 (final_state (plmem_probe percent_label boot)) /\
    class_devs (final_state (plmem_probe percent_label boot)) = [nd] /\
    find_property "label" (pdev_properties percent_label) = Some "bank%%0" /\
    dev_name nd = Some "bank%0".
Proof. eexists. split; [vm_compute; reflexivity|]. by vm_compute. Qed.
